(** * SpeedScanPro: URL validation, PageSpeed response normalisation, export

    A shallow embedding of [src/main.py] ([validate_url], [export_results])
    and [src/utils/api_client.py] ([PageSpeedInsightsAPI._fetch_metrics],
    [get_metrics]), followed by the properties proved about them.

    Python values are modelled as they reach the code: the upstream payload is
    whatever [response.json()] yields, i.e. a JSON value built from [None],
    [bool], [int], [float] (IEEE binary64, the kernel's primitive floats),
    [str], [list] and [dict].  A [dict] keeps insertion order, so it is an
    association list.  Python exceptions are values of [exn]; code that can
    raise runs in a small state-and-error monad whose state holds what the
    code prints and the local variable the [except] clause reads. *)

From Stdlib Require Import ZArith NArith List String Ascii Bool Lia PrimFloat.
Import ListNotations.
Local Open Scope string_scope.

Set Implicit Arguments.
Set Warnings "-register-all,-inexact-float".

(* ================================================================== *)
(** * Part I.  Python values *)
(* ================================================================== *)

Module Py.

(** [str] helpers.  Strings that are only compared, searched or concatenated
    are kept as [string]. *)

Fixpoint is_prefix (p s : string) : bool :=
  match p, s with
  | EmptyString, _ => true
  | String a p', String b s' => Ascii.eqb a b && is_prefix p' s'
  | String _ _, EmptyString => false
  end.

(** [needle in haystack] for two [str]. *)
Fixpoint is_substring (needle hay : string) : bool :=
  is_prefix needle hay ||
  match hay with
  | EmptyString => false
  | String _ hay' => is_substring needle hay'
  end.

(** [sep.join(parts)]. *)
Fixpoint join (sep : string) (parts : list string) : string :=
  match parts with
  | [] => ""
  | [p] => p
  | p :: rest => p ++ sep ++ join sep rest
  end.

(** [s.replace(a, b)] for one-character [a] and [b]. *)
Fixpoint replace_char (a b : ascii) (s : string) : string :=
  match s with
  | EmptyString => EmptyString
  | String c s' => String (if Ascii.eqb c a then b else c) (replace_char a b s')
  end.

(** [s.split(sep)] for a one-character separator: never the empty list. *)
Fixpoint split_on (sep : ascii) (s : string) : list string :=
  match s with
  | EmptyString => [EmptyString]
  | String c s' =>
      if Ascii.eqb c sep then EmptyString :: split_on sep s'
      else match split_on sep s' with
           | w :: ws => String c w :: ws
           | [] => [String c EmptyString]
           end
  end.

Definition upper_ascii (c : ascii) : ascii :=
  let n := nat_of_ascii c in
  if andb (Nat.leb 97 n) (Nat.leb n 122) then ascii_of_nat (n - 32) else c.

Definition lower_ascii (c : ascii) : ascii :=
  let n := nat_of_ascii c in
  if andb (Nat.leb 65 n) (Nat.leb n 90) then ascii_of_nat (n + 32) else c.

Fixpoint lower_str (s : string) : string :=
  match s with
  | EmptyString => EmptyString
  | String c s' => String (lower_ascii c) (lower_str s')
  end.

(** [word.capitalize()]: first character upper-cased, the rest lower-cased. *)
Definition capitalize (s : string) : string :=
  match s with
  | EmptyString => EmptyString
  | String c s' => String (upper_ascii c) (lower_str s')
  end.

(** Numbers: Python [int] is unbounded, [float] is binary64. *)
Inductive num : Type :=
  | PyInt (z : Z)
  | PyFloat (f : float).

(** What [response.json()] can return, and what the code builds from it. *)
Inductive json : Type :=
  | JNull
  | JBool (b : bool)
  | JNum (n : num)
  | JStr (s : string)
  | JList (l : list json)
  | JDict (d : list (string * json)).

Definition dict := list (string * json).

Fixpoint lookup (k : string) (d : dict) : option json :=
  match d with
  | [] => None
  | (k', v) :: d' => if String.eqb k k' then Some v else lookup k d'
  end.

Definition has_key (k : string) (d : dict) : bool :=
  match lookup k d with Some _ => true | None => false end.

(** [d[k] = v]: overwrite in place when the key exists, append otherwise. *)
Fixpoint dict_set (d : dict) (k : string) (v : json) : dict :=
  match d with
  | [] => [(k, v)]
  | (k', v') :: d' =>
      if String.eqb k k' then (k', v) :: d' else (k', v') :: dict_set d' k v
  end.

Definition keys (d : dict) : list string := map fst d.

Definition is_null (v : json) : bool :=
  match v with JNull => true | _ => false end.

Definition is_str (v : json) : bool :=
  match v with JStr _ => true | _ => false end.

(** [type(v).__name__]. *)
Definition type_name (v : json) : string :=
  match v with
  | JNull => "NoneType"
  | JBool _ => "bool"
  | JNum (PyInt _) => "int"
  | JNum (PyFloat _) => "float"
  | JStr _ => "str"
  | JList _ => "list"
  | JDict _ => "dict"
  end.

(** ** Exceptions *)

Inductive exn_class : Type :=
  | RequestException      (* requests.exceptions.RequestException and subclasses *)
  | KeyError
  | TypeError
  | AttributeError
  | UnboundLocalError
  | OtherError            (* any other subclass of Exception, e.g. ValueError *)
  | PlainException.       (* raise Exception("...") *)

Record exn : Type := Exn { exn_cls : exn_class; exn_msg : string }.

(** [str(e)]: the message; for a [KeyError] the message already is the
    [repr] of the key. *)
Definition str_of_exn (e : exn) : string := exn_msg e.

Inductive outcome (A : Type) : Type :=
  | Return (a : A)
  | Raise (e : exn).
Arguments Return {A} a.
Arguments Raise {A} e.

(** ** Operations of the object model that the code uses, with the
    exceptions CPython raises. *)

Definition quote (s : string) : string := "'" ++ s ++ "'".

(** [k in c] for a [str] k. *)
Definition py_contains (k : string) (c : json) : outcome bool :=
  match c with
  | JDict d => Return (has_key k d)
  | JList l =>
      Return (existsb (fun v => match v with JStr s => String.eqb s k | _ => false end) l)
  | JStr s => Return (is_substring k s)
  | _ => Raise (Exn TypeError
             ("argument of type " ++ quote (type_name c) ++ " is not iterable"))
  end.

(** [c[k]] for a [str] k. *)
Definition py_getitem (c : json) (k : string) : outcome json :=
  match c with
  | JDict d =>
      match lookup k d with
      | Some v => Return v
      | None => Raise (Exn KeyError (quote k))
      end
  | JList _ => Raise (Exn TypeError "list indices must be integers or slices, not str")
  | JStr _ => Raise (Exn TypeError "string indices must be integers, not 'str'")
  | _ => Raise (Exn TypeError (quote (type_name c) ++ " object is not subscriptable"))
  end.

(** [c.get(k, default)]: a method of [dict] only. *)
Definition py_get (c : json) (k : string) (default : json) : outcome json :=
  match c with
  | JDict d => Return (match lookup k d with Some v => v | None => default end)
  | _ => Raise (Exn AttributeError
             (quote (type_name c) ++ " object has no attribute 'get'"))
  end.

(** [c.keys()]. *)
Definition py_keys (c : json) : outcome (list string) :=
  match c with
  | JDict d => Return (keys d)
  | _ => Raise (Exn AttributeError
             (quote (type_name c) ++ " object has no attribute 'keys'"))
  end.

Definition isinstance_dict (v : json) : bool :=
  match v with JDict _ => true | _ => false end.

End Py.

(* ================================================================== *)
(** * Part II.  [validate_url] (src/main.py) *)
(* ================================================================== *)

(** The validator inspects single characters, so here a [str] is the list of
    its code points.  [re] classifies non-ASCII code points with the Unicode
    tables of the running interpreter; they are not part of the repository and
    are taken as parameters, consulted only above U+007F. *)

Module Regex.

Definition pystr := list N.

Definition of_ascii_string (s : string) : pystr :=
  map N_of_ascii (list_ascii_of_string s).

Record unicode_tables : Type := UnicodeTables {
  (** [uni_ci c l]: under [re.IGNORECASE] the non-ASCII code point [c]
      matches the lower-case ASCII letter [l] *)
  uni_ci : N -> N -> bool;
  (** [uni_decimal c]: the non-ASCII code point [c] is matched by [\d] *)
  uni_decimal : N -> bool;
  (** [uni_space c]: the non-ASCII code point [c] is matched by [\s] *)
  uni_space : N -> bool
}.

(** The fragment of regular expressions the pattern is written in.  [Chr p]
    is any item that consumes one character: a literal, a class, an escape. *)
Inductive re : Type :=
  | Bol                                   (* ^ *)
  | Eol                                   (* $ *)
  | Chr (p : N -> bool)
  | Seq (a b : re)
  | Alt (a b : re)                        (* a|b *)
  | Rep (lo : nat) (hi : option nat) (a : re).   (* a{lo,hi}; hi = None: unbounded *)

(** A matcher position: how many characters were consumed, and the rest. *)
Definition pos : Type := (nat * pystr)%type.

(** Iterating [step] at least [lo] and at most [fuel] times, longest first as
    the greedy quantifiers do. *)
Fixpoint rep (step : pos -> list pos) (lo fuel : nat) (st : pos) : list pos :=
  match fuel with
  | O => []
  | S fuel' => flat_map (rep step (Nat.pred lo) fuel') (step st)
  end ++ (if Nat.eqb lo 0 then [st] else []).

(** All positions at which a match of [r] started at [st] can end, in
    backtracking order.  Without [re.MULTILINE], [^] holds at the start of
    the string only and [$] at its end or just before a newline that ends it.
    An unbounded repetition of a body that consumes a character can iterate
    at most as often as there are characters left. *)
Fixpoint run (r : re) (st : pos) : list pos :=
  match r with
  | Bol => if Nat.eqb (fst st) 0 then [st] else []
  | Eol =>
      match snd st with
      | [] => [st]
      | [c] => if N.eqb c 10 then [st] else []
      | _ => []
      end
  | Chr p =>
      match snd st with
      | c :: rest => if p c then [(S (fst st), rest)] else []
      | [] => []
      end
  | Seq a b => flat_map (run b) (run a st)
  | Alt a b => run a st ++ run b st
  | Rep lo hi a =>
      match hi with
      | Some h => rep (run a) lo h st
      | None => rep (run a) lo (lo + List.length (snd st)) st
      end
  end.

(** [bool(pattern.match(s))]: a match anchored at position 0 exists. *)
Definition matches (r : re) (s : pystr) : bool :=
  match run r (0, s) with [] => false | _ :: _ => true end.

Fixpoint cat (rs : list re) : re :=
  match rs with
  | [] => Rep 0 (Some 0) Bol
  | [r] => r
  | r :: rs' => Seq r (cat rs')
  end.

Definition opt (r : re) : re := Rep 0 (Some 1) r.
Definition plus (r : re) : re := Rep 1 None r.

Section Classes.
Variable U : unicode_tables.

Definition is_ascii (c : N) : bool := N.ltb c 128.
Definition in_range (lo hi c : N) : bool := N.leb lo c && N.leb c hi.

Definition ascii_lower (c : N) : N :=
  if in_range 65 90 c then (c + 32)%N else c.

Definition ascii_letter (c : N) : bool :=
  in_range 65 90 c || in_range 97 122 c.

Definition ascii_digit (c : N) : bool := in_range 48 57 c.

(** the 26 lower-case letters, as code points *)
Definition letters : list N := map N.of_nat (seq 97 26).

(** [[A-Z]] under IGNORECASE *)
Definition cls_alpha (c : N) : bool :=
  if is_ascii c then ascii_letter c else existsb (uni_ci U c) letters.

(** [[A-Z0-9]] under IGNORECASE *)
Definition cls_alnum (c : N) : bool :=
  if is_ascii c then ascii_letter c || ascii_digit c
  else existsb (uni_ci U c) letters.

(** [[A-Z0-9-]] under IGNORECASE *)
Definition cls_alnum_dash (c : N) : bool :=
  if is_ascii c then ascii_letter c || ascii_digit c || N.eqb c 45
  else existsb (uni_ci U c) letters.

(** [\d] *)
Definition cls_digit (c : N) : bool :=
  if is_ascii c then ascii_digit c else uni_decimal U c.

(** [\S]: anything but white space; the ASCII white space of [str] is
    U+0009..U+000D, U+001C..U+001F and the space. *)
Definition cls_nonspace (c : N) : bool :=
  negb (if is_ascii c
        then in_range 9 13 c || in_range 28 31 c || N.eqb c 32
        else uni_space U c).

(** a literal character under IGNORECASE *)
Definition lit_char (l : N) (c : N) : bool :=
  if is_ascii c then N.eqb (ascii_lower c) (ascii_lower l)
  else ascii_letter l && uni_ci U c (ascii_lower l).

Definition lit (s : string) : re :=
  cat (map (fun l => Chr (lit_char l)) (of_ascii_string s)).

Definition one_of (s : string) : re :=
  Chr (fun c => existsb (fun l => lit_char l c) (of_ascii_string s)).
End Classes.

End Regex.

Module Main.
Import Regex.

Section Validator.
Variable U : unicode_tables.

(** [(?:[A-Z0-9](?:[A-Z0-9-]{0,61}[A-Z0-9])?\.)+[A-Z]{2,6}\.?] *)
Definition hostname : re :=
  cat [ plus (cat [ Chr (cls_alnum U);
                    opt (cat [ Rep 0 (Some 61) (Chr (cls_alnum_dash U));
                               Chr (cls_alnum U) ]);
                    lit U "." ]);
        Rep 2 (Some 6) (Chr (cls_alpha U));
        opt (lit U ".") ].

(** [\d{1,3}\.\d{1,3}\.\d{1,3}\.\d{1,3}] *)
Definition octet : re := Rep 1 (Some 3) (Chr (cls_digit U)).
Definition dotted_quad : re :=
  cat [ octet; lit U "."; octet; lit U "."; octet; lit U "."; octet ].

(** Everything of the pattern before its final [$]. *)
Definition url_body : re :=
  cat [ Bol;
        lit U "http"; opt (lit U "s"); lit U "://";
        Alt hostname (Alt (lit U "localhost") dotted_quad);
        opt (cat [ lit U ":"; plus (Chr (cls_digit U)) ]);
        Alt (opt (lit U "/")) (cat [ one_of U "/?"; plus (Chr (cls_nonspace U)) ]) ].

Definition pattern : re := Seq url_body Eol.

Definition validate_url (url : pystr) : bool := matches pattern url.
End Validator.

End Main.

(* ================================================================== *)
(** * Part III.  [PageSpeedInsightsAPI] (src/utils/api_client.py) *)
(* ================================================================== *)

Module ApiClient.
Import Py.

(** ** The outside world

    [requests.get], [raise_for_status] and [response.json] are library calls
    on the network; what each of them does is an input of the model. *)

Record response : Type := Response {
  resp_truthy : bool;          (* bool(response) *)
  status_code : Z;
  resp_json : outcome json     (* what response.json() returns or raises *)
}.

Inductive network : Type :=
  | GetRaises (e : exn)                                   (* requests.get raises *)
  | GetReturns (r : response) (status_error : option exn). (* raise_for_status *)

(** ** State: standard output and the locals the [except] clauses read

    [response] is bound to [None] before the [try]; [required_audits] is bound
    only once line 105 has run. *)

Record frame : Type := Frame {
  stdout : list string;
  response_var : option response;
  required_audits_var : option (list string)
}.

Definition initial_frame : frame := Frame [] None None.

Definition M (A : Type) : Type := frame -> outcome A * frame.

Definition ret {A} (a : A) : M A := fun s => (Return a, s).
Definition raise {A} (e : exn) : M A := fun s => (Raise e, s).
Definition bind {A B} (m : M A) (k : A -> M B) : M B :=
  fun s => match m s with
           | (Return a, s') => k a s'
           | (Raise e, s') => (Raise e, s')
           end.
Definition lift {A} (o : outcome A) : M A := fun s => (o, s).

Notation "x <- m ;; k" := (bind m (fun x => k))
  (at level 61, m at next level, right associativity).
Notation "m ;;; k" := (bind m (fun _ => k))
  (at level 61, right associativity).

Definition print (line : string) : M unit :=
  fun s => (Return tt, Frame (stdout s ++ [line]) (response_var s) (required_audits_var s)).
Definition bind_response (r : response) : M unit :=
  fun s => (Return tt, Frame (stdout s) (Some r) (required_audits_var s)).
Definition bind_required_audits (l : list string) : M unit :=
  fun s => (Return tt, Frame (stdout s) (response_var s) (Some l)).
Definition read_response : M (option response) :=
  fun s => (Return (response_var s), s).

(** Reading the local [required_audits]: unbound, it raises. *)
Definition read_required_audits : M (list string) :=
  fun s => match required_audits_var s with
           | Some l => (Return l, s)
           | None => (Raise (Exn UnboundLocalError
               "cannot access local variable 'required_audits' where it is not associated with a value"), s)
           end.

(** [try: body except ... as e: handler e] *)
Definition try_except {A} (body : M A) (handler : exn -> M A) : M A :=
  fun s => match body s with
           | (Return a, s') => (Return a, s')
           | (Raise e, s') => handler e s'
           end.

Definition zero : json := JNum (PyInt 0).
Definition score_dict (score : json) : json := JDict [("score", score)].

(** [score if score is not None else 0] *)
Definition or_zero (score : json) : json := if is_null score then zero else score.

(** ** Lines 52-101: categories *)

Definition category_keys : list (string * list string) :=
  [ ("performance", ["performance"]);
    ("accessibility", ["accessibility"]);
    ("best-practices", ["best-practices"; "bestPractices"]);
    ("seo", ["seo"]) ].

(** Lines 61-76: the inner [for api_key in possible_keys]; [Some entry] when
    the loop left through [break] with [found = True]. *)
Fixpoint first_found (categories : json) (possible_keys : list string)
  : M (option json) :=
  match possible_keys with
  | [] => ret None
  | api_key :: rest =>
      present <- lift (py_contains api_key categories) ;;
      if present then
        category_data <- lift (py_getitem categories api_key) ;;
        score <- (if is_null category_data then ret JNull
                  else if isinstance_dict category_data then
                    has_score <- lift (py_contains "score" category_data) ;;
                    if has_score then lift (py_getitem category_data "score")
                    else ret JNull
                  else ret JNull) ;;
        ret (Some (score_dict (or_zero score)))
      else first_found categories rest
  end.

(** Line 80: [our_key.replace('_', '-')] *)
Definition kebab_of (our_key : string) : string := replace_char "_" "-" our_key.

(** Lines 81-82: every word after the first capitalised, joined without
    separator. *)
Definition camel_of (our_key : string) : string :=
  match split_on "-" our_key with
  | [] => ""
  | w :: ws => String.concat "" (w :: map capitalize ws)
  end.

(** Lines 85-89 and 91-95: [category_data.get('score', 0) if isinstance(...) else 0] *)
Definition alt_entry (categories : json) (key : string) : M json :=
  category_data <- lift (py_getitem categories key) ;;
  score <- (if isinstance_dict category_data
            then lift (py_get category_data "score" zero)
            else ret zero) ;;
  ret (score_dict (or_zero score)).

Definition missing_warning (our_key : string) (available : list string) : string :=
  "Warning: Category '" ++ our_key ++ "' not found. Available: " ++ join ", " available.

(** Lines 59-101, one iteration of the outer loop: the entry stored under
    [our_key]. *)
Definition normalize_category (categories : json) (our_key : string)
    (possible_keys : list string) (result_categories : dict) : M dict :=
  found <- first_found categories possible_keys ;;
  match found with
  | Some entry => ret (dict_set result_categories our_key entry)
  | None =>
      let kebab_key := kebab_of our_key in
      let camel_key := camel_of our_key in
      in_kebab <- lift (py_contains kebab_key categories) ;;
      if in_kebab then
        entry <- alt_entry categories kebab_key ;;
        ret (dict_set result_categories our_key entry)
      else
        in_camel <- lift (py_contains camel_key categories) ;;
        if in_camel then
          entry <- alt_entry categories camel_key ;;
          ret (dict_set result_categories our_key entry)
        else
          let result_categories' := dict_set result_categories our_key (score_dict zero) in
          available <- lift (py_keys categories) ;;
          print (missing_warning our_key available) ;;;
          ret result_categories'
  end.

Fixpoint normalize_categories (categories : json)
    (table : list (string * list string)) (result_categories : dict) : M dict :=
  match table with
  | [] => ret result_categories
  | (our_key, possible_keys) :: rest =>
      result_categories' <-
        normalize_category categories our_key possible_keys result_categories ;;
      normalize_categories categories rest result_categories'
  end.

(** ** Lines 104-126: audits *)

Definition required_audits : list string :=
  [ "first-contentful-paint";
    "interactive";
    "largest-contentful-paint";
    "cumulative-layout-shift";
    "total-blocking-time";
    "server-response-time";
    "interaction-to-next-paint" ].

Definition na : json := JStr "N/A".
Definition default_audit : json := JDict [("displayValue", na); ("score", zero)].

(** Lines 116-126: the entry stored under [audit_key]. *)
Definition normalize_audit (audits : json) (audit_key : string) : M json :=
  present <- lift (py_contains audit_key audits) ;;
  usable <- (if present then
               v <- lift (py_getitem audits audit_key) ;; ret (negb (is_null v))
             else ret false) ;;
  if usable then
    audit_data <- lift (py_getitem audits audit_key) ;;
    display_value <- lift (py_get audit_data "displayValue" na) ;;
    probe <- lift (py_get audit_data "score" JNull) ;;
    score <- (if negb (is_null probe) then lift (py_get audit_data "score" zero)
              else ret zero) ;;
    ret (JDict [("displayValue", display_value); ("score", score)])
  else ret default_audit.

Fixpoint normalize_audits (audits : json) (audit_keys : list string)
    (result_audits : dict) : M dict :=
  match audit_keys with
  | [] => ret result_audits
  | audit_key :: rest =>
      entry <- normalize_audit audits audit_key ;;
      normalize_audits audits rest (dict_set result_audits audit_key entry)
  end.

Definition make_result (categories audits : dict) : json :=
  JDict [("lighthouse_result",
          JDict [("categories", JDict categories); ("audits", JDict audits)])].

(** Lines 148-161: the all-default result, one audit per element of the
    list it is given. *)
Definition default_result (audit_keys : list string) : json :=
  make_result
    [ ("performance", score_dict zero);
      ("accessibility", score_dict zero);
      ("best-practices", score_dict zero);
      ("seo", score_dict zero) ]
    (fold_left (fun d audit => dict_set d audit default_audit) audit_keys []).

(** ** Lines 31-128: the body of the [try] *)

Definition try_body (net : network) : M json :=
  r <- (match net with
        | GetRaises e => raise e
        | GetReturns r _ => ret r
        end) ;;
  bind_response r ;;;
  (match net with
   | GetReturns _ (Some e) => raise e
   | _ => ret tt
   end) ;;;
  data <- lift (resp_json r) ;;
  has_result <- lift (py_contains "lighthouseResult" data) ;;
  if negb has_result then
    raise (Exn PlainException "Invalid API response: No lighthouse results found")
  else
    lighthouse <- lift (py_getitem data "lighthouseResult") ;;
    categories <- lift (py_getitem lighthouse "categories") ;;
    result_categories <- normalize_categories categories category_keys [] ;;
    lighthouse' <- lift (py_getitem data "lighthouseResult") ;;
    audits <- lift (py_get lighthouse' "audits" (JDict [])) ;;
    bind_required_audits required_audits ;;;
    audit_keys <- read_required_audits ;;
    result_audits <- normalize_audits audits audit_keys [] ;;
    ret (make_result result_categories result_audits).

Section Formatting.
(** [str(value)] as an f-string renders it; library code, a parameter. *)
Variable py_str : json -> string.

(** [response and response.status_code == code] *)
Definition response_has_status (response : option response) (code : Z) : bool :=
  match response with
  | Some r => resp_truthy r && Z.eqb (status_code r) code
  | None => false
  end.

(** Lines 130-141: [except requests.exceptions.RequestException as e] *)
Definition on_request_exception (e : exn) : M json :=
  response <- read_response ;;
  if response_has_status response 400 then
    body <- lift (match response with
                  | Some r => resp_json r
                  | None => Return JNull
                  end) ;;
    error <- lift (py_get body "error" (JDict [])) ;;
    error_detail <- lift (py_get error "message" (JStr "")) ;;
    invalid_key <- lift (py_contains "API key not valid" error_detail) ;;
    if invalid_key then
      raise (Exn PlainException
               "Invalid API key. Please check your PageSpeed Insights API key.")
    else raise (Exn PlainException ("Bad request: " ++ py_str error_detail))
  else if response_has_status response 403 then
    raise (Exn PlainException
             "API key error: Access forbidden. Please ensure your API key has the necessary permissions.")
  else raise (Exn PlainException ("Failed to fetch metrics: " ++ str_of_exn e)).

(** Lines 142-143: [except KeyError as e] *)
Definition on_key_error (e : exn) : M json :=
  raise (Exn PlainException ("Invalid API response format: " ++ str_of_exn e)).

(** Lines 144-163: [except Exception as e] *)
Definition on_exception (url : string) (e : exn) : M json :=
  if is_substring "score" (str_of_exn e) then
    print ("Score error for " ++ url ++ ": " ++ str_of_exn e) ;;;
    audit_keys <- read_required_audits ;;
    ret (default_result audit_keys)
  else raise (Exn PlainException ("An error occurred: " ++ str_of_exn e)).

(** The three [except] clauses, tried in order. *)
Definition handler (url : string) (e : exn) : M json :=
  match exn_cls e with
  | RequestException => on_request_exception e
  | KeyError => on_key_error e
  | _ => on_exception url e
  end.

(** Lines 19-163: the body of the function, as it runs when the cache of
    line 18 does not answer the call ([cached_fetch_metrics] below adds the
    cache).  The request itself is the [network] argument. *)
Definition _fetch_metrics (net : network)
    (base_url api_key url strategy : string) (headers : list (string * string))
  : M json :=
  try_except (try_body net) (handler url).

Record PageSpeedInsightsAPI : Type := Client {
  base_url : string;
  api_key : string;
  headers : list (string * string)
}.

(** Lines 6-15: [__init__]; an absent or empty key is falsy. *)
Definition init (key : option string) : outcome PageSpeedInsightsAPI :=
  match key with
  | None | Some EmptyString =>
      Raise (Exn PlainException
        "API key not provided. Please provide a valid PageSpeed Insights API key.")
  | Some k =>
      Return (Client "https://www.googleapis.com/pagespeedonline/v5/runPagespeed" k
                [("User-Agent",
                  "Mozilla/5.0 (Windows NT 10.0; Win64; x64) AppleWebKit/537.36 (KHTML, like Gecko) Chrome/91.0.4472.124 Safari/537.36")])
  end.

(** Lines 165-169. *)
Definition get_metrics (self : PageSpeedInsightsAPI) (net : network)
    (url strategy : string) : M json :=
  _fetch_metrics net (base_url self) (api_key self) url strategy (headers self).

(** One run of the body, started with fresh locals: what a call that the
    cache does not answer returns or raises. *)
Definition call_get_metrics (self : PageSpeedInsightsAPI) (net : network)
    (url strategy : string) : outcome json :=
  fst (get_metrics self net url strategy initial_frame).

(** ... and what that run of the body printed.  A call answered from the
    cache does not run the body and prints nothing: see
    [cached_get_metrics]. *)
Definition printed_by_get_metrics (self : PageSpeedInsightsAPI) (net : network)
    (url strategy : string) : list string :=
  stdout (snd (get_metrics self net url strategy initial_frame)).

(** ** The cache of line 18

    [@st.cache_data(ttl=3600, show_spinner=False)] keys a call by its
    arguments.  A call whose key has a live entry is answered with the
    stored value and the body does not run; otherwise the body runs, and
    the value it returns is stored (an exception stores nothing).  Entries
    expire after an hour, so the entries alive when a call is made are an
    input of the call. *)
Definition cache_key : Type :=
  (string * string * string * string * list (string * string))%type.

Fixpoint headers_eqb (a b : list (string * string)) : bool :=
  match a, b with
  | [], [] => true
  | (k, v) :: a', (k', v') :: b' => String.eqb k k' && String.eqb v v' && headers_eqb a' b'
  | _, _ => false
  end.

Definition key_eqb (a b : cache_key) : bool :=
  let '(base, key, url, strategy, headers) := a in
  let '(base', key', url', strategy', headers') := b in
  String.eqb base base' && String.eqb key key' && String.eqb url url'
  && String.eqb strategy strategy' && headers_eqb headers headers'.

Definition cache : Type := list (cache_key * json).

Fixpoint cache_lookup (k : cache_key) (c : cache) : option json :=
  match c with
  | [] => None
  | (k', v) :: rest => if key_eqb k k' then Some v else cache_lookup k rest
  end.

(** What a call through the cache does: its outcome, the lines it printed
    and the cache it leaves. *)
Record cached_call : Type := CachedCall {
  answer : outcome json;
  printed : list string;
  cache_after : cache
}.

Definition cached_fetch_metrics (c : cache) (net : network)
    (base_url api_key url strategy : string) (headers : list (string * string))
  : cached_call :=
  let key := (base_url, api_key, url, strategy, headers) in
  match cache_lookup key c with
  | Some value => CachedCall (Return value) [] c
  | None =>
      let (o, s) := _fetch_metrics net base_url api_key url strategy headers initial_frame in
      CachedCall o (stdout s)
        (match o with Return value => (key, value) :: c | Raise _ => c end)
  end.

(** Lines 165-169, through the cache. *)
Definition cached_get_metrics (self : PageSpeedInsightsAPI) (c : cache) (net : network)
    (url strategy : string) : cached_call :=
  cached_fetch_metrics c net (base_url self) (api_key self) url strategy (headers self).
End Formatting.

End ApiClient.

(* ================================================================== *)
(** * Part IV.  [analyze_url] and [export_results] (src/main.py) *)
(* ================================================================== *)

Module Exporter.
Import Py ApiClient.

(** What [analyze_url] returns: a dict with exactly these three keys. *)
Record AnalysisRecord : Type := Analysis {
  url : string;
  desktop : json;
  mobile : json
}.

(** Lines 74-79. *)
Definition analyze_url (py_str : json -> string) (api_client : PageSpeedInsightsAPI)
    (net_desktop net_mobile : network) (u : string) : outcome AnalysisRecord :=
  match call_get_metrics py_str api_client net_desktop u "desktop" with
  | Raise e => Raise e
  | Return desktop_results =>
      match call_get_metrics py_str api_client net_mobile u "mobile" with
      | Raise e => Raise e
      | Return mobile_results => Return (Analysis u desktop_results mobile_results)
      end
  end.

Definition obind {A B} (o : outcome A) (k : A -> outcome B) : outcome B :=
  match o with Return a => k a | Raise e => Raise e end.

Definition unsupported (op : string) (v : json) : exn :=
  Exn TypeError ("'" ++ op ++ "' not supported between instances of "
                 ++ quote (type_name v) ++ " and 'int'").

(** [score > 0]; [bool] is a subclass of [int]. *)
Definition py_gt_zero (score : json) : outcome bool :=
  match score with
  | JBool b => Return b
  | JNum (PyInt z) => Return (Z.ltb 0 z)
  | JNum (PyFloat f) => Return (PrimFloat.ltb 0%float f)
  | _ => Raise (unsupported ">" score)
  end.

Fixpoint repeat_string (n : nat) (s : string) : string :=
  match n with O => "" | S n' => s ++ repeat_string n' s end.

(** [score * 100] *)
Definition py_times_100 (score : json) : outcome json :=
  match score with
  | JBool b => Return (JNum (PyInt (if b then 100 else 0)))
  | JNum (PyInt z) => Return (JNum (PyInt (z * 100)))
  | JNum (PyFloat f) => Return (JNum (PyFloat (f * 100)%float))
  | JStr s => Return (JStr (repeat_string 100 s))
  | JList l => Return (JList (List.concat (repeat l 100)))
  | _ => Raise (Exn TypeError
             ("unsupported operand type(s) for *: " ++ quote (type_name score) ++ " and 'int'"))
  end.

(** Lines 92-95: the body of the [try] in [get_score]. *)
Definition get_score_body (data : json) (category : string) : outcome json :=
  obind (py_getitem data "lighthouse_result") (fun lighthouse =>
  obind (py_getitem lighthouse "categories") (fun categories =>
  obind (py_getitem categories category) (fun entry =>
  obind (py_getitem entry "score") (fun score =>
  if is_null score then Return na
  else obind (py_gt_zero score) (fun positive =>
       if positive then py_times_100 score else Return zero))))).

(** Lines 90-97: [except (KeyError, TypeError): return 'N/A']. *)
Definition get_score (data : json) (category : string) : outcome json :=
  match get_score_body data category with
  | Return cell => Return cell
  | Raise e =>
      match exn_cls e with
      | KeyError | TypeError => Return na
      | _ => Raise e
      end
  end.

(** [get_score(result[side], category)]: the subscript is evaluated first,
    outside the [try] of [get_score]. *)
Definition score_cell (result : json) (side category : string) : outcome json :=
  obind (py_getitem result side) (fun data => get_score data category).

(** Lines 99-109: one flattened row, a dict from column name to cell.  A
    result is any value of the list handed to [export_results]; the
    subscripts [result['url']], [result['desktop']] and [result['mobile']]
    raise when it lacks the key or is not a dict. *)
Definition make_row (result : json) : outcome dict :=
  obind (py_getitem result "url") (fun u =>
  obind (score_cell result "desktop" "performance") (fun dp =>
  obind (score_cell result "desktop" "accessibility") (fun da =>
  obind (score_cell result "desktop" "best-practices") (fun db =>
  obind (score_cell result "desktop" "seo") (fun ds =>
  obind (score_cell result "mobile" "performance") (fun mp =>
  obind (score_cell result "mobile" "accessibility") (fun ma =>
  obind (score_cell result "mobile" "best-practices") (fun mb =>
  obind (score_cell result "mobile" "seo") (fun ms =>
  Return [ ("URL", u);
           ("Desktop Performance", dp);
           ("Desktop Accessibility", da);
           ("Desktop Best Practices", db);
           ("Desktop SEO", ds);
           ("Mobile Performance", mp);
           ("Mobile Accessibility", ma);
           ("Mobile Best Practices", mb);
           ("Mobile SEO", ms) ]))))))))).

(** Lines 88-110. *)
Fixpoint flatten (results : list json) : outcome (list dict) :=
  match results with
  | [] => Return []
  | result :: rest =>
      obind (make_row result) (fun row =>
      obind (flatten rest) (fun rows => Return (row :: rows)))
  end.

(** [pd.DataFrame(list_of_dicts)]: the columns are the keys in order of
    first appearance, a cell missing from a row is empty ([NaN]).  The
    table holds the cells as they were handed over; how pandas stores and
    prints them is left to the renderers below. *)
Record DataFrame : Type := Table {
  columns : list string;
  table_rows : list (list (option json))
}.

Fixpoint add_new (seen new : list string) : list string :=
  match new with
  | [] => seen
  | k :: rest =>
      if existsb (String.eqb k) seen then add_new seen rest
      else add_new (seen ++ [k]) rest
  end.

Definition pd_DataFrame (data : list dict) : DataFrame :=
  let cols := fold_left (fun seen row => add_new seen (keys row)) data [] in
  Table cols (map (fun row => map (fun c => lookup c row) cols) data).

(** The libraries that write the export out: [json.dumps],
    [DataFrame.to_csv] and the Excel writer.  Each refuses some values (an
    integer with too many digits to print, one too large for a spreadsheet
    cell, a sheet with too many rows) and raises instead of returning; which
    values, and with which exception, is theirs to decide, so it is a
    parameter: [None] when the value is written, the exception otherwise. *)
Record renderers : Type := Renderers {
  json_refuses : json -> option exn;
  csv_refuses : DataFrame -> option exn;
  excel_refuses : DataFrame -> option exn
}.

(** [df.to_csv(index=False)], up to rendering: the header record followed by
    one record per row, when the library writes the table. *)
Inductive csv_cell : Type :=
  | Header (name : string)
  | Cell (v : option json).

Definition to_csv (lib : renderers) (df : DataFrame) : outcome (list (list csv_cell)) :=
  match csv_refuses lib df with
  | Some e => Raise e
  | None => Return (map Header (columns df) :: map (map Cell) (table_rows df))
  end.

(** The dict that [analyze_url] returns, as the value [export_results]
    receives. *)
Definition record_to_json (r : AnalysisRecord) : json :=
  JDict [("url", JStr (url r)); ("desktop", desktop r); ("mobile", mobile r)].

(** What [export_results] hands back: the text or bytes are produced by
    [json.dumps], [DataFrame.to_csv] and [ExcelWriter]; the model keeps the
    value given to them. *)
Inductive artifact : Type :=
  | JsonDumps (value : json) (indent : nat)
  | CsvText (records : list (list csv_cell))
  | ExcelBytes (sheet_name : string) (df : DataFrame)
  | PyNone.

(** [json.dumps(results, indent=2)] *)
Definition json_dumps (lib : renderers) (value : json) (indent : nat) : outcome artifact :=
  match json_refuses lib value with
  | Some e => Raise e
  | None => Return (JsonDumps value indent)
  end.

(** Lines 117-120: the workbook with one sheet. *)
Definition to_excel (lib : renderers) (sheet_name : string) (df : DataFrame)
  : outcome artifact :=
  match excel_refuses lib df with
  | Some e => Raise e
  | None => Return (ExcelBytes sheet_name df)
  end.

(** Lines 82-120. *)
Definition export_results (lib : renderers) (results : list json) (format : string)
  : outcome artifact :=
  if String.eqb format "json" then json_dumps lib (JList results) 2
  else
    obind (flatten results) (fun flattened_data =>
    let df := pd_DataFrame flattened_data in
    if String.eqb format "csv" then
      obind (to_csv lib df) (fun text => Return (CsvText text))
    else if String.eqb format "excel" then to_excel lib "Analysis Results" df
    else Return PyNone).

End Exporter.

(* ================================================================== *)
(** * Part V.  Vocabulary of the properties *)
(* ================================================================== *)

Module Spec.
Import Py Regex ApiClient Exporter.

(** ** Validator *)

Definition newline : N := 10.

(** The string's last character is a newline. *)
Definition ends_with_newline (s : pystr) : bool :=
  match rev s with
  | c :: _ => N.eqb c newline
  | [] => false
  end.

(** [$] does not occur in the expression. *)
Fixpoint eol_free (r : re) : bool :=
  match r with
  | Eol => false
  | Bol | Chr _ => true
  | Seq a b | Alt a b => eol_free a && eol_free b
  | Rep _ _ a => eol_free a
  end.

(** What is left after a match is a suffix of what was there before. *)
Definition leaves_suffix (step : pos -> list pos) : Prop :=
  forall st st', In st' (step st) -> exists pre, snd st = (pre ++ snd st')%list.

(** A match that never looks at [$] is unaffected by characters appended to
    the subject. *)
Definition extends (x : pystr) (step : pos -> list pos) : Prop :=
  forall p s p' t, In (p', t) (step (p, s)) -> In (p', (t ++ x)%list) (step (p, (s ++ x)%list)).

(** An interpreter whose tables know no character beyond ASCII: enough to
    run the validator on ASCII inputs, where the tables are not consulted. *)
Definition ascii_only : unicode_tables :=
  UnicodeTables (fun _ _ => false) (fun _ => false) (fun _ => false).

(** ** Reading a normalised result *)

Definition field (k : string) (v : json) : option json :=
  match v with
  | JDict d => lookup k d
  | _ => None
  end.

Fixpoint path (ks : list string) (v : json) : option json :=
  match ks with
  | [] => Some v
  | k :: rest =>
      match field k v with
      | Some v' => path rest v'
      | None => None
      end
  end.

Definition category_score (result : json) (category : string) : option json :=
  path ["lighthouse_result"; "categories"; category; "score"] result.

Definition audit_entry (result : json) (audit : string) : option json :=
  path ["lighthouse_result"; "audits"; audit] result.

Definition four_categories : list string :=
  ["performance"; "accessibility"; "best-practices"; "seo"].

(** The shape every returned result has: exactly the four categories, each
    [{'score': v}] with [v] not [None]; exactly the seven audits, each
    [{'displayValue': d, 'score': v}] with [v] not [None]. *)
Definition score_entry (e : json) : Prop :=
  exists v, e = JDict [("score", v)] /\ v <> JNull.

Definition audit_shape (e : json) : Prop :=
  exists d v, e = JDict [("displayValue", d); ("score", v)] /\ v <> JNull.

Definition normalized (result : json) : Prop :=
  exists cats auds,
    result = make_result cats auds /\
    keys cats = four_categories /\ Forall score_entry (map snd cats) /\
    keys auds = required_audits /\ Forall audit_shape (map snd auds).

(** The shape as the data model words it: in addition every [displayValue]
    is a [str]. *)
Definition display_value_is_str (result : json) (audit : string) : bool :=
  match path ["lighthouse_result"; "audits"; audit; "displayValue"] result with
  | Some (JStr _) => true
  | _ => false
  end.

Definition all_display_values_str (result : json) : bool :=
  forallb (display_value_is_str result) required_audits.

(** ** Reading the upstream payload *)

(** The network answered, the status was fine and the body parsed to [data]. *)
Definition delivers (net : network) (data : json) : Prop :=
  exists r, net = GetReturns r None /\ resp_json r = Return data.

Definition ok_response (data : json) : network :=
  GetReturns (Response true 200 (Return data)) None.

(** The payload has the result object, a dict [lighthouse]. *)
Definition has_lighthouse (data : json) (lighthouse : dict) : Prop :=
  exists top, data = JDict top /\ lookup "lighthouseResult" top = Some (JDict lighthouse).

(** "Use the first variant found": the entry under the first of the
    candidate keys that the upstream mapping has. *)
Fixpoint found_entry (cs : dict) (candidates : list string) : option json :=
  match candidates with
  | [] => None
  | k :: rest =>
      match lookup k cs with
      | Some e => Some e
      | None => found_entry cs rest
      end
  end.

(** The score recorded for a found entry: [0] when the entry is not a
    mapping, has no [score], or has [score: null]; the raw value otherwise. *)
Definition expected_score (entry : json) : json :=
  match entry with
  | JDict d =>
      match lookup "score" d with
      | Some JNull | None => zero
      | Some v => v
      end
  | _ => zero
  end.

(** The score as the specification words it: [0] unless the entry has a
    numeric [score]. *)
Definition is_number (v : json) : bool :=
  match v with JNum _ => true | _ => false end.

Definition claimed_score (entry : json) : json :=
  match entry with
  | JDict d =>
      match lookup "score" d with
      | Some v => if is_number v then v else zero
      | None => zero
      end
  | _ => zero
  end.

(** An audit entry the normaliser can read: absent, [null], or a mapping. *)
Definition audit_readable (audits : dict) (audit : string) : bool :=
  match lookup audit audits with
  | None | Some JNull | Some (JDict _) => true
  | Some _ => false
  end.

Definition is_missing_warning_for (category line : string) : bool :=
  is_prefix ("Warning: Category '" ++ category ++ "' not found.") line.

Definition all_default_audits : dict :=
  map (fun k => (k, default_audit)) required_audits.

(** ** Exceptions and frames *)

(** An exception the [except Exception] clause does not turn into the
    all-default result: a [KeyError] (caught by the clause before it) or one
    whose text does not mention "score". *)
Definition quiet (e : exn) : Prop :=
  exn_cls e = KeyError \/ is_substring "score" (exn_msg e) = false.

(** The frame after printing [lines]. *)
Definition add_lines (s : frame) (lines : list string) : frame :=
  Frame (stdout s ++ lines) (response_var s) (required_audits_var s).

(** Storing a list of entries one after the other. *)
Definition set_all (acc : dict) (entries : list (string * json)) : dict :=
  fold_left (fun d p => dict_set d (fst p) (snd p)) entries acc.

(** What a normalised audit entry is, given the upstream [audits] value:
    its [displayValue] is the upstream one or ["N/A"]. *)
Definition audit_from (audits : json) (audit : string) (e : json) : Prop :=
  exists d v,
    e = JDict [("displayValue", d); ("score", v)] /\ v <> JNull /\
    (d = na \/ path [audit; "displayValue"] audits = Some d).

(** What is recorded for one row of [category_keys], given the upstream
    categories mapping. *)
Definition category_from (cs : dict) (row : string * list string) (v : json) : Prop :=
  v <> JNull /\ forall e, found_entry cs (snd row) = Some e -> v = expected_score e.

(** A diagnostic is printed only for a category none of whose candidate
    keys is upstream. *)
Definition warning_from (cs : dict) (table : list (string * list string))
    (line : string) : Prop :=
  exists row, In row table /\ found_entry cs (snd row) = None /\
              line = missing_warning (fst row) (keys cs).

(** The line the last [except] clause prints before it builds its result. *)
Definition score_error_line (url : string) (e : exn) : string :=
  "Score error for " ++ url ++ ": " ++ exn_msg e.

(** [lighthouse.get('audits', {})] *)
Definition audits_of (lighthouse : dict) : json :=
  match lookup "audits" lighthouse with
  | Some a => a
  | None => JDict []
  end.

(** ** Sample inputs *)

Definition show_str (v : json) : string :=
  match v with JStr s => s | _ => "<" ++ type_name v ++ ">" end.

Definition sample_client : PageSpeedInsightsAPI :=
  Client "https://www.googleapis.com/pagespeedonline/v5/runPagespeed" "KEY" [].

Definition number (f : float) : json := JNum (PyFloat f).

Definition lighthouse_payload (lighthouse : dict) : json :=
  JDict [("lighthouseResult", JDict lighthouse)].

Definition sample_url : string := "https://example.com".

(** camelCase best practices, a null score, a null category, a sparse
    audits mapping *)
Definition categories_camel : dict :=
  [ ("performance", JDict [("score", number 0.87)]);
    ("accessibility", JDict [("score", JNull)]);
    ("bestPractices", JDict [("score", number 0.5)]);
    ("seo", JNull) ].

Definition audits_camel : dict :=
  [ ("interactive", JDict [("displayValue", JStr "1.2 s"); ("score", number 0.9)]);
    ("total-blocking-time", JNull) ].

Definition lighthouse_camel : dict :=
  [ ("categories", JDict categories_camel); ("audits", JDict audits_camel) ].

Definition payload_camel : json := lighthouse_payload lighthouse_camel.

(** an audit whose [displayValue] is [null] *)
Definition payload_null_display : json :=
  lighthouse_payload
    [ ("categories", JDict [("performance", JDict [("score", number 0.87)])]);
      ("audits",
       JDict [("interactive", JDict [("displayValue", JNull); ("score", number 1)])]) ].

(** a category whose [score] is text *)
Definition payload_text_score : json :=
  lighthouse_payload
    [ ("categories", JDict [("performance", JDict [("score", JStr "high")])]) ].

(** the result object without [categories] (and without [audits]) *)
Definition payload_empty_result : json := lighthouse_payload [].

Definition payload_only_url : json :=
  lighthouse_payload [("finalUrl", JStr "https://example.com")].

(** [categories] but no [audits] *)
Definition categories_seo : dict := [("seo", JDict [("score", number 1)])].
Definition lighthouse_no_audits : dict := [("categories", JDict categories_seo)].
Definition payload_no_audits : json := lighthouse_payload lighthouse_no_audits.

Definition run_sample (data : json) : outcome json :=
  call_get_metrics show_str sample_client (ok_response data) sample_url "desktop".

Definition printed_sample (data : json) : list string :=
  printed_by_get_metrics show_str sample_client (ok_response data) sample_url "desktop".

Definition result_of (o : outcome json) : json :=
  match o with Return r => r | Raise _ => JNull end.

Definition sample_result_camel : json :=
  Eval vm_compute in result_of (run_sample payload_camel).

Definition sample_result_no_audits : json :=
  Eval vm_compute in result_of (run_sample payload_no_audits).

(** ** Exporter *)

Definition read_score (data : json) (category : string) : option json :=
  path ["lighthouse_result"; "categories"; category; "score"] data.

(** A score Python can compare with [0] and multiply: a number or a [bool]. *)
Definition is_numeric (v : json) : bool :=
  match v with JNum _ | JBool _ => true | _ => false end.

Definition is_positive (v : json) : bool :=
  match v with
  | JBool b => b
  | JNum (PyInt z) => Z.ltb 0 z
  | JNum (PyFloat f) => PrimFloat.ltb 0%float f
  | _ => false
  end.

Definition times_100 (v : json) : json :=
  match v with
  | JBool b => JNum (PyInt (if b then 100 else 0))
  | JNum (PyInt z) => JNum (PyInt (z * 100))
  | JNum (PyFloat f) => JNum (PyFloat (f * 100)%float)
  | _ => v
  end.

Definition exactly_zero (v : json) : Prop :=
  v = JNum (PyInt 0) \/ v = JNum (PyFloat 0%float) \/ v = JNum (PyFloat (-0)%float).

(** The nine columns of the flattened table. *)
Definition column_names : list string :=
  [ "URL";
    "Desktop Performance"; "Desktop Accessibility"; "Desktop Best Practices"; "Desktop SEO";
    "Mobile Performance"; "Mobile Accessibility"; "Mobile Best Practices"; "Mobile SEO" ].

(** What [get_score] hands back. *)
Definition cell_of (data : json) (category : string) : json :=
  result_of (get_score data category).

(** The CSV record of one analysis: the URL, then the four desktop and the
    four mobile cells. *)
Definition csv_row (r : AnalysisRecord) : list csv_cell :=
  Cell (Some (JStr (url r))) ::
  map (fun category => Cell (Some (cell_of (desktop r) category))) four_categories ++
  map (fun category => Cell (Some (cell_of (mobile r) category))) four_categories.

Definition result_with_performance (score : json) : json :=
  make_result
    [ ("performance", score_dict score);
      ("accessibility", score_dict zero);
      ("best-practices", score_dict zero);
      ("seo", score_dict zero) ]
    all_default_audits.

(** ** What the normaliser computes, in closed form *)

(** The score recorded for one row of [category_keys]: that of the first
    candidate key present upstream, [0] when none is. *)
Definition recorded_score (cs : dict) (candidates : list string) : json :=
  match found_entry cs candidates with
  | Some e => expected_score e
  | None => zero
  end.

Definition expected_categories (cs : dict) : dict :=
  map (fun row => (fst row, score_dict (recorded_score cs (snd row)))) category_keys.

Definition is_missing (cs : dict) (row : string * list string) : bool :=
  match found_entry cs (snd row) with
  | Some _ => false
  | None => true
  end.

(** One diagnostic per category none of whose candidate keys is upstream,
    in the order of [category_keys]. *)
Definition expected_warnings (cs : dict) : list string :=
  map (fun row => missing_warning (fst row) (keys cs))
      (filter (is_missing cs) category_keys).

(** The entry stored for an audit, from what upstream has under its key. *)
Definition expected_audit (entry : option json) : json :=
  match entry with
  | Some (JDict d) =>
      JDict [ ("displayValue",
               match lookup "displayValue" d with Some v => v | None => na end);
              ("score",
               match lookup "score" d with
               | Some JNull | None => zero
               | Some v => v
               end) ]
  | _ => default_audit
  end.

Definition expected_audits (auds : dict) : dict :=
  map (fun k => (k, expected_audit (lookup k auds))) required_audits.

(** The upstream [audits] values on which lines 115-126 do not raise: a
    mapping whose seven entries are each absent, [null] or a mapping; a list
    or a string in which none of the seven identifiers occurs. *)
Definition is_str_equal (k : string) (v : json) : bool :=
  match v with JStr s => String.eqb s k | _ => false end.

Definition audits_ok (audits : json) : bool :=
  match audits with
  | JDict d => forallb (audit_readable d) required_audits
  | JList l => forallb (fun k => negb (existsb (is_str_equal k) l)) required_audits
  | JStr s => forallb (fun k => negb (is_substring k s)) required_audits
  | _ => false
  end.

(** What is stored for the seven audits when [audits_ok] holds. *)
Definition audits_result (audits : json) : dict :=
  match audits with
  | JDict d => expected_audits d
  | _ => all_default_audits
  end.

(** ** Transport failures *)

Definition failed_status (r : response) (e : exn) : network := GetReturns r (Some e).

Definition http_error (text : string) : exn := Exn RequestException text.

(** ** Validator, continued *)

(** ASCII white space as [str.isspace] has it. *)
Definition ascii_space (c : N) : bool :=
  in_range 9 13 c || in_range 28 31 c || N.eqb c 32.

(** No item of the expression accepts a character of the set [bad]. *)
Fixpoint chars_avoid (bad : N -> bool) (r : re) : Prop :=
  match r with
  | Chr p => forall c, bad c = true -> p c = false
  | Seq a b | Alt a b => chars_avoid bad a /\ chars_avoid bad b
  | Rep _ _ a => chars_avoid bad a
  | Bol | Eol => True
  end.

(** Every item of the expression gives the same verdict on [f c] as on [c]. *)
Fixpoint chars_invariant (f : N -> N) (r : re) : Prop :=
  match r with
  | Chr p => forall c, p (f c) = p c
  | Seq a b | Alt a b => chars_invariant f a /\ chars_invariant f b
  | Rep _ _ a => chars_invariant f a
  | Bol | Eol => True
  end.

(** [s.lower()] restricted to the ASCII letters. *)
Definition lower_ascii_letters (s : pystr) : pystr := map ascii_lower s.

Definition on_rest (f : N -> N) (st : pos) : pos := (fst st, map f (snd st)).

(** The string begins with the characters of [prefix], each compared as a
    literal of the pattern is. *)
Fixpoint starts_with (U : unicode_tables) (prefix s : pystr) : bool :=
  match prefix, s with
  | [], _ => true
  | l :: prefix', c :: s' => lit_char U l c && starts_with U prefix' s'
  | _ :: _, [] => false
  end.

(** What a step consumes is free of the characters of [bad]. *)
Definition consumes_clean (bad : N -> bool) (step : pos -> list pos) : Prop :=
  forall st st', In st' (step st) ->
    exists pre, snd st = (pre ++ snd st')%list /\ Forall (fun c => bad c = false) pre.

(** A step commutes with mapping [f] over the rest of the subject. *)
Definition commutes_with (f : N -> N) (step : pos -> list pos) : Prop :=
  forall st, step (on_rest f st) = map (on_rest f) (step st).


(** ** Exporter, continued *)

(** The flattened row of one record. *)
Definition flat_row (r : AnalysisRecord) : dict :=
  [ ("URL", JStr (url r));
    ("Desktop Performance", cell_of (desktop r) "performance");
    ("Desktop Accessibility", cell_of (desktop r) "accessibility");
    ("Desktop Best Practices", cell_of (desktop r) "best-practices");
    ("Desktop SEO", cell_of (desktop r) "seo");
    ("Mobile Performance", cell_of (mobile r) "performance");
    ("Mobile Accessibility", cell_of (mobile r) "accessibility");
    ("Mobile Best Practices", cell_of (mobile r) "best-practices");
    ("Mobile SEO", cell_of (mobile r) "seo") ].

Definition table_row (r : AnalysisRecord) : list (option json) :=
  map (fun c => lookup c (flat_row r)) column_names.

Definition known_format (format : string) : bool :=
  String.eqb format "json" || String.eqb format "csv" || String.eqb format "excel".

(** The three keys [export_results] reads from each result. *)
Definition record_keys : list string := ["url"; "desktop"; "mobile"].

(** The table built from a batch of records: for a batch that is not empty,
    the nine columns and one row per record; no column at all for the empty
    batch. *)
Definition frame_of (records : list AnalysisRecord) : DataFrame :=
  Table (match records with [] => [] | _ :: _ => column_names end)
        (map table_row records).

(** The records of the CSV written from that table. *)
Definition csv_of (records : list AnalysisRecord) : list (list csv_cell) :=
  match records with
  | [] => [[]]
  | _ :: _ => map Header column_names :: map csv_row records
  end.

(** What a renderer makes of its verdict on a value. *)
Definition rendered (verdict : option exn) (a : artifact) : outcome artifact :=
  match verdict with Some e => Raise e | None => Return a end.

(** Renderers that refuse nothing. *)
Definition lenient : renderers :=
  Renderers (fun _ => None) (fun _ => None) (fun _ => None).

(** Renderers whose CSV writer refuses every table. *)
Definition csv_refused : exn := Exn OtherError "refused".

Definition without_csv : renderers :=
  Renderers (fun _ => None) (fun _ => Some csv_refused) (fun _ => None).

(** A result without its [desktop] half. *)
Definition result_without_desktop : json := JDict [("url", JStr sample_url)].

(** ** The cache *)

Definition key_of (self : PageSpeedInsightsAPI) (url strategy : string) : cache_key :=
  (base_url self, api_key self, url, strategy, headers self).

(** ** Responses as [requests] builds them

    From the library ([requests.models.Response]): [raise_for_status] raises
    for a status code from 400 to 599, and the truth value of a response is
    its [ok], false exactly when [raise_for_status] would raise. *)
Definition status_is_error (code : Z) : bool := Z.leb 400 code && Z.ltb code 600.

Definition requests_truthiness (r : response) : Prop :=
  resp_truthy r = negb (status_is_error (status_code r)).

Definition fetch_failure (e : exn) : outcome json :=
  Raise (Exn PlainException ("Failed to fetch metrics: " ++ exn_msg e)).

End Spec.

(* ================================================================== *)
(** * Part VI.  Properties of [validate_url] *)
(* ================================================================== *)

Module ValidatorProofs.
Import Regex Main Spec.
Local Open Scope list_scope.

Lemma in_flat_map_iff {A B : Type} (f : A -> list B) (l : list A) (y : B) :
  In y (flat_map f l) <-> exists x, In x l /\ In y (f x).
Proof. apply in_flat_map. Qed.

(** More fuel never removes a way to iterate. *)
Lemma rep_fuel_mono (step : pos -> list pos) (n m : nat) :
  n <= m -> forall lo st x, In x (rep step lo n st) -> In x (rep step lo m st).
Proof.
  intro Hle. revert m Hle.
  induction n as [|n IH]; intros m Hle lo st x Hin.
  - destruct m as [|m]; [exact Hin|].
    simpl in Hin. simpl. apply in_or_app. right. exact Hin.
  - destruct m as [|m]; [lia|].
    simpl in Hin |- *. apply in_app_or in Hin. apply in_or_app.
    destruct Hin as [Hin|Hin]; [left|right; exact Hin].
    apply in_flat_map_iff in Hin. destruct Hin as [mid [Hmid Hx]].
    apply in_flat_map_iff. exists mid. split; [exact Hmid|].
    apply IH; [lia|exact Hx].
Qed.


Lemma rep_suffix (step : pos -> list pos) :
  leaves_suffix step -> forall n lo, leaves_suffix (rep step lo n).
Proof.
  intros Hstep n. induction n as [|n IH]; intros lo st st' Hin; simpl in Hin.
  - destruct (Nat.eqb lo 0); [|contradiction].
    destruct Hin as [<-|[]]. exists []. reflexivity.
  - apply in_app_or in Hin. destruct Hin as [Hin|Hin].
    + apply in_flat_map_iff in Hin. destruct Hin as [mid [Hmid Hx]].
      destruct (Hstep _ _ Hmid) as [p1 E1].
      destruct (IH _ _ _ Hx) as [p2 E2].
      exists (p1 ++ p2). rewrite E1, E2, app_assoc. reflexivity.
    + destruct (Nat.eqb lo 0); [|contradiction].
      destruct Hin as [<-|[]]. exists []. reflexivity.
Qed.

Lemma run_suffix (r : re) : leaves_suffix (run r).
Proof.
  induction r as [| |p|a IHa b IHb|a IHa b IHb|lo hi a IHa];
    intros st st' Hin; simpl in Hin.
  - destruct (Nat.eqb (fst st) 0); [|contradiction].
    destruct Hin as [<-|[]]. exists []. reflexivity.
  - destruct (snd st) as [|c [|c' rest]] eqn:E; try contradiction.
    + destruct Hin as [<-|[]]. exists []. rewrite E. reflexivity.
    + destruct (N.eqb c 10); [|contradiction].
      destruct Hin as [<-|[]]. exists []. rewrite E. reflexivity.
  - destruct (snd st) as [|c rest] eqn:E; [contradiction|].
    destruct (p c); [|contradiction].
    destruct Hin as [<-|[]]. exists [c]. reflexivity.
  - apply in_flat_map_iff in Hin. destruct Hin as [mid [Hmid Hx]].
    destruct (IHa _ _ Hmid) as [p1 E1]. destruct (IHb _ _ Hx) as [p2 E2].
    exists (p1 ++ p2). rewrite E1, E2, app_assoc. reflexivity.
  - apply in_app_or in Hin. destruct Hin as [Hin|Hin]; [apply IHa|apply IHb]; exact Hin.
  - destruct hi as [h|]; eapply rep_suffix; eauto.
Qed.


Lemma rep_extends (x : pystr) (step : pos -> list pos) :
  extends x step -> forall n lo, extends x (rep step lo n).
Proof.
  intros Hstep n. induction n as [|n IH]; intros lo p s p' t Hin; simpl in Hin |- *.
  - destruct (Nat.eqb lo 0); [|contradiction].
    destruct Hin as [E|[]]. inversion E; subst. left. reflexivity.
  - apply in_app_or in Hin. apply in_or_app. destruct Hin as [Hin|Hin].
    + left. apply in_flat_map_iff in Hin. destruct Hin as [[pm sm] [Hmid Hx]].
      apply in_flat_map_iff. exists (pm, sm ++ x). split.
      * apply Hstep. exact Hmid.
      * apply IH. exact Hx.
    + right. destruct (Nat.eqb lo 0); [|contradiction].
      destruct Hin as [E|[]]. inversion E; subst. left. reflexivity.
Qed.

Lemma run_extends (x : pystr) (r : re) : eol_free r = true -> extends x (run r).
Proof.
  induction r as [| |q|a IHa b IHb|a IHa b IHb|lo hi a IHa];
    intros Hfree p s p' t Hin; simpl in Hfree; simpl in Hin |- *.
  - destruct (Nat.eqb p 0); [|contradiction].
    destruct Hin as [E|[]]. inversion E; subst. left. reflexivity.
  - discriminate.
  - destruct s as [|c rest]; [contradiction|]. simpl.
    destruct (q c); [|contradiction].
    destruct Hin as [E|[]]. inversion E; subst. left. reflexivity.
  - apply andb_true_iff in Hfree. destruct Hfree as [Ha Hb].
    apply in_flat_map_iff in Hin. destruct Hin as [[pm sm] [Hmid Hx]].
    apply in_flat_map_iff. exists (pm, sm ++ x). split.
    + apply IHa; assumption.
    + apply IHb; assumption.
  - apply andb_true_iff in Hfree. destruct Hfree as [Ha Hb].
    apply in_app_or in Hin. apply in_or_app.
    destruct Hin as [Hin|Hin]; [left; apply IHa|right; apply IHb]; assumption.
  - destruct hi as [h|].
    + apply rep_extends; auto.
    + apply rep_fuel_mono with (n := lo + List.length s).
      * rewrite length_app. lia.
      * apply rep_extends; auto.
Qed.

Lemma run_seq (a b : re) (st : pos) :
  run (Seq a b) st = flat_map (run b) (run a st).
Proof. reflexivity. Qed.

Lemma matches_true (r : re) (s : pystr) :
  matches r s = true <-> exists st, In st (run r (0, s)).
Proof.
  unfold matches. destruct (run r (0, s)) as [|st l]; split.
  - discriminate.
  - intros [st []].
  - intros _. exists st. left. reflexivity.
  - reflexivity.
Qed.

Lemma ends_with_newline_app (pre : pystr) :
  ends_with_newline (pre ++ [newline]) = true.
Proof. unfold ends_with_newline. rewrite rev_app_distr. reflexivity. Qed.

Lemma url_body_eol_free (U : unicode_tables) : eol_free (url_body U) = true.
Proof. reflexivity. Qed.

(** C7: the validator accepts ["https://example.com"] and
    ["http://192.168.1.1:8080/path"] and rejects ["ftp://x.com"] and
    ["not a url"], whatever the interpreter's Unicode tables are. *)
Theorem validate_url_examples (U : unicode_tables) :
  validate_url U (of_ascii_string "https://example.com") = true /\
  validate_url U (of_ascii_string "http://192.168.1.1:8080/path") = true /\
  validate_url U (of_ascii_string "ftp://x.com") = false /\
  validate_url U (of_ascii_string "not a url") = false.
Proof. repeat split; vm_compute; reflexivity. Qed.

(** C10 as stated fails: ["https://example.com\n"] is accepted, yet the same
    string followed by one more newline is rejected, because [$] only looks
    past a newline that is the very last character. *)
Lemma second_trailing_newline_rejected :
  validate_url ascii_only (of_ascii_string "https://example.com" ++ [newline]) = true /\
  validate_url ascii_only
    ((of_ascii_string "https://example.com" ++ [newline]) ++ [newline]) = false.
Proof. split; vm_compute; reflexivity. Qed.

(** C10 (amended): some accepted string contains a newline, and every
    accepted string that does not already end in a newline is still accepted
    with one newline appended. *)
Theorem trailing_newline_accepted (U : unicode_tables) :
  (exists s, In newline s /\ validate_url U s = true) /\
  (forall s, validate_url U s = true -> ends_with_newline s = false ->
             validate_url U (s ++ [newline]) = true).
Proof.
  split.
  - exists (of_ascii_string "https://example.com" ++ [newline]). split.
    + apply in_or_app. right. left. reflexivity.
    + vm_compute. reflexivity.
  - intros s Hacc Hend. unfold validate_url, pattern in *.
    apply matches_true in Hacc. destruct Hacc as [st Hst].
    rewrite run_seq in Hst. apply in_flat_map_iff in Hst.
    destruct Hst as [[p t] [Hbody Heol]].
    destruct (run_suffix _ _ _ Hbody) as [pre Hpre]. cbn [snd] in Hpre.
    assert (Ht : t = []).
    { cbn [run snd] in Heol. destruct t as [|c [|c' rest]]; [reflexivity| |contradiction].
      destruct (N.eqb c 10) eqn:Ec; [|contradiction].
      apply N.eqb_eq in Ec. subst c s.
      pose proof (ends_with_newline_app pre) as Hn. unfold newline in Hn.
      congruence. }
    subst t.
    apply matches_true. exists (p, [newline]).
    rewrite run_seq. apply in_flat_map_iff. exists (p, [newline]). split.
    + apply (run_extends [newline] (url_body U) (url_body_eol_free U) 0 s p []).
      exact Hbody.
    + left. reflexivity.
Qed.

Lemma trailing_newline_accepted_witness :
  validate_url ascii_only (of_ascii_string "https://example.com") = true /\
  ends_with_newline (of_ascii_string "https://example.com") = false /\
  validate_url ascii_only (of_ascii_string "https://example.com" ++ [newline]) = true.
Proof.
  assert (Hacc : validate_url ascii_only (of_ascii_string "https://example.com") = true)
    by (vm_compute; reflexivity).
  assert (Hend : ends_with_newline (of_ascii_string "https://example.com") = false)
    by (vm_compute; reflexivity).
  exact (conj Hacc (conj Hend
           (proj2 (trailing_newline_accepted ascii_only) _ Hacc Hend))).
Defined.

End ValidatorProofs.

(* ================================================================== *)
(** * Part VII.  Properties of the API client *)
(* ================================================================== *)

Unset Implicit Arguments.

Module ClientProofs.
Import Py ApiClient Spec.

(** ** The monad *)

Lemma bind_return {A B} (m : M A) (k : A -> M B) s b s' :
  bind m k s = (Return b, s') ->
  exists a s1, m s = (Return a, s1) /\ k a s1 = (Return b, s').
Proof.
  unfold bind. destruct (m s) as [[a|e] s1]; intro H.
  - exists a, s1. split; [reflexivity|exact H].
  - discriminate.
Qed.

Lemma bind_raise {A B} (m : M A) (k : A -> M B) s e s' :
  bind m k s = (Raise e, s') ->
  m s = (Raise e, s') \/ exists a s1, m s = (Return a, s1) /\ k a s1 = (Raise e, s').
Proof.
  unfold bind. destruct (m s) as [[a|e0] s1]; intro H.
  - right. exists a, s1. split; [reflexivity|exact H].
  - left. inversion H. reflexivity.
Qed.

Lemma bind_eq {A B} (m : M A) (k : A -> M B) s a s1 :
  m s = (Return a, s1) -> bind m k s = k a s1.
Proof. unfold bind. intros ->. reflexivity. Qed.

Lemma bind_eq_raise {A B} (m : M A) (k : A -> M B) s e s1 :
  m s = (Raise e, s1) -> bind m k s = (Raise e, s1).
Proof. unfold bind. intros ->. reflexivity. Qed.

Lemma add_lines_nil s : add_lines s [] = s.
Proof. destruct s. unfold add_lines. simpl. rewrite app_nil_r. reflexivity. Qed.

Lemma add_lines_app s l1 l2 : add_lines (add_lines s l1) l2 = add_lines s (l1 ++ l2)%list.
Proof. unfold add_lines. simpl. rewrite app_assoc. reflexivity. Qed.

(** ** The object model raises nothing that mentions "score" *)

Ltac quiet_text := right; reflexivity.

Lemma py_contains_quiet k c e : py_contains k c = Raise e -> quiet e.
Proof.
  destruct c as [|b|[z|f]|s0|l|d0]; cbn [py_contains]; intro H;
    try discriminate; injection H as <-; quiet_text.
Qed.

Lemma py_getitem_quiet c k e : py_getitem c k = Raise e -> quiet e.
Proof.
  destruct c as [|b|[z|f]|s0|l|d0]; cbn [py_getitem]; intro H.
  1-6: injection H as <-; quiet_text.
  destruct (lookup k d0); [discriminate|]. injection H as <-. left. reflexivity.
Qed.

Lemma py_get_quiet c k d e : py_get c k d = Raise e -> quiet e.
Proof.
  destruct c as [|b|[z|f]|s0|l|d0]; cbn [py_get]; intro H;
    try discriminate; injection H as <-; quiet_text.
Qed.

Lemma py_keys_quiet c e : py_keys c = Raise e -> quiet e.
Proof.
  destruct c as [|b|[z|f]|s0|l|d0]; cbn [py_keys]; intro H;
    try discriminate; injection H as <-; quiet_text.
Qed.

(** ** Audits *)

(** ** Categories *)

Lemma expected_score_not_null e : expected_score e <> JNull.
Proof.
  destruct e as [|b|n|s0|l|d]; cbn [expected_score]; try discriminate.
  destruct (lookup "score" d) as [[|b|n|s0|l|d']|]; discriminate.
Qed.

Lemma or_zero_not_null v : or_zero v <> JNull.
Proof. destruct v; discriminate. Qed.

(** the score the inner loop extracts is [expected_score] *)
Lemma first_found_dict cs pks s :
  first_found (JDict cs) pks s =
  (Return (option_map (fun e => score_dict (expected_score e)) (found_entry cs pks)), s).
Proof.
  induction pks as [|k rest IH]; [reflexivity|].
  cbn [first_found found_entry]. unfold bind, lift, ret.
  cbn [py_contains py_getitem]. unfold has_key.
  destruct (lookup k cs) as [e|] eqn:L; cbn beta iota.
  - destruct e as [|b|n|s0|l|d]; try reflexivity.
    cbn [is_null isinstance_dict py_contains py_getitem expected_score option_map].
    unfold has_key.
    destruct (lookup "score" d) as [v|]; cbn beta iota; [|reflexivity].
    destruct v; reflexivity.
  - exact IH.
Qed.

Lemma py_getitem_other c k :
  isinstance_dict c = false -> exists e, py_getitem c k = Raise e /\ quiet e.
Proof.
  destruct c as [|b|[z|f]|s0|l|d0]; cbn [isinstance_dict py_getitem]; intro H;
    try discriminate; eexists; (split; [reflexivity|right; reflexivity]).
Qed.

Lemma py_keys_other c :
  isinstance_dict c = false -> exists e, py_keys c = Raise e /\ quiet e.
Proof.
  destruct c as [|b|[z|f]|s0|l|d0]; cbn [isinstance_dict py_keys]; intro H;
    try discriminate; eexists; (split; [reflexivity|right; reflexivity]).
Qed.

Lemma first_found_other c pks s :
  isinstance_dict c = false ->
  exists o, first_found c pks s = (o, s) /\
            match o with Return r => r = None | Raise x => quiet x end.
Proof.
  intro Hc. induction pks as [|k rest IH].
  - exists (Return None). split; reflexivity.
  - cbn [first_found]. unfold bind, lift, ret.
    destruct (py_contains k c) as [present|e] eqn:E; cbn beta iota.
    2:{ eexists; split; [reflexivity|]. eapply py_contains_quiet; eauto. }
    destruct present; [|exact IH].
    destruct (py_getitem_other c k Hc) as [e [-> Hq]]. cbn beta iota.
    eexists; split; [reflexivity|exact Hq].
Qed.

Lemma alt_entry_other c k s :
  isinstance_dict c = false ->
  exists e, alt_entry c k s = (Raise e, s) /\ quiet e.
Proof.
  intro Hc. unfold alt_entry, bind, lift.
  destruct (py_getitem_other c k Hc) as [e [-> Hq]]. cbn beta iota.
  exists e. split; [reflexivity|exact Hq].
Qed.

Lemma alt_entry_dict cs k e s :
  lookup k cs = Some e ->
  exists v, alt_entry (JDict cs) k s = (Return (score_dict v), s) /\ v <> JNull.
Proof.
  intro L. unfold alt_entry, bind, lift, ret. cbn [py_getitem]. rewrite L. cbn beta iota.
  destruct e as [|b|n|s0|l|d];
    cbn [isinstance_dict py_get]; cbn beta iota;
    eexists; (split; [reflexivity|apply or_zero_not_null]).
Qed.

Lemma normalize_category_other c k pks acc s :
  isinstance_dict c = false ->
  exists e, normalize_category c k pks acc s = (Raise e, s) /\ quiet e.
Proof.
  intro Hc. unfold normalize_category.
  destruct (first_found_other c pks s Hc) as [o [Hf Ho]].
  destruct o as [r|x].
  2:{ exists x. split; [|exact Ho]. apply bind_eq_raise. exact Hf. }
  subst r. rewrite (bind_eq _ _ _ _ _ Hf).
  unfold bind at 1. unfold lift at 1.
  destruct (py_contains (kebab_of k) c) as [b|x] eqn:E1; cbn beta iota.
  2:{ exists x. split; [reflexivity|]. eapply py_contains_quiet; eauto. }
  destruct b.
  { destruct (alt_entry_other c (kebab_of k) s Hc) as [x [Hx Hq]].
    exists x. split; [|exact Hq]. apply bind_eq_raise. exact Hx. }
  unfold bind at 1. unfold lift at 1.
  destruct (py_contains (camel_of k) c) as [b|x] eqn:E2; cbn beta iota.
  2:{ exists x. split; [reflexivity|]. eapply py_contains_quiet; eauto. }
  destruct b.
  { destruct (alt_entry_other c (camel_of k) s Hc) as [x [Hx Hq]].
    exists x. split; [|exact Hq]. apply bind_eq_raise. exact Hx. }
  destruct (py_keys_other c Hc) as [x [Hx Hq]].
  exists x. split; [|exact Hq]. unfold bind, lift. rewrite Hx. reflexivity.
Qed.

Lemma normalize_category_dict cs k pks acc s :
  exists v lines,
    normalize_category (JDict cs) k pks acc s
      = (Return (dict_set acc k (score_dict v)), add_lines s lines) /\
    v <> JNull /\
    (forall e, found_entry cs pks = Some e -> v = expected_score e /\ lines = []) /\
    (lines = [] \/ (found_entry cs pks = None /\ lines = [missing_warning k (keys cs)])).
Proof.
  unfold normalize_category. rewrite (bind_eq _ _ _ _ _ (first_found_dict cs pks s)).
  destruct (found_entry cs pks) as [e|] eqn:F; cbn [option_map].
  - exists (expected_score e), []. rewrite add_lines_nil.
    split; [reflexivity|]. split; [apply expected_score_not_null|].
    split; [|left; reflexivity]. intros e' E. injection E as <-. split; reflexivity.
  - unfold bind at 1. unfold lift at 1. cbn [py_contains]. unfold has_key. cbn beta iota.
    destruct (lookup (kebab_of k) cs) as [e|] eqn:L1.
    { destruct (alt_entry_dict cs (kebab_of k) e s L1) as [v [Hv Hn]].
      exists v, []. rewrite add_lines_nil. rewrite (bind_eq _ _ _ _ _ Hv).
      split; [reflexivity|]. split; [exact Hn|].
      split; [discriminate|left; reflexivity]. }
    unfold bind at 1. unfold lift at 1. cbn [py_contains]. unfold has_key. cbn beta iota.
    destruct (lookup (camel_of k) cs) as [e|] eqn:L2.
    { destruct (alt_entry_dict cs (camel_of k) e s L2) as [v [Hv Hn]].
      exists v, []. rewrite add_lines_nil. rewrite (bind_eq _ _ _ _ _ Hv).
      split; [reflexivity|]. split; [exact Hn|].
      split; [discriminate|left; reflexivity]. }
    exists zero, [missing_warning k (keys cs)].
    split; [reflexivity|]. split; [discriminate|].
    split; [discriminate|right; split; reflexivity].
Qed.


(** ** The loops *)

Lemma normalize_audit_from a k s :
  exists o, normalize_audit a k s = (o, s) /\
            match o with Return e => audit_from a k e | Raise x => quiet x end.
Proof.
  unfold normalize_audit, bind, lift, ret.
  destruct (py_contains k a) as [present|e] eqn:Hc; cbn beta iota.
  2:{ eexists; split; [reflexivity|]. eapply py_contains_quiet; eauto. }
  destruct present; cbn beta iota.
  2:{ eexists; split; [reflexivity|]. exists na, zero.
      split; [reflexivity|]. split; [discriminate|left; reflexivity]. }
  destruct (py_getitem a k) as [v|e] eqn:Hg; cbn beta iota.
  2:{ eexists; split; [reflexivity|]. eapply py_getitem_quiet; eauto. }
  destruct (is_null v) eqn:Hn; cbn beta iota.
  { eexists; split; [reflexivity|]. exists na, zero.
    split; [reflexivity|]. split; [discriminate|left; reflexivity]. }
  destruct (py_get v "displayValue" na) as [dv|e] eqn:Hd; cbn beta iota.
  2:{ eexists; split; [reflexivity|]. eapply py_get_quiet; eauto. }
  assert (Hdv : dv = na \/ path [k; "displayValue"] a = Some dv).
  { destruct a as [|b|n|s0|l|d]; cbn [py_getitem] in Hg; try discriminate.
    destruct (lookup k d) as [v'|] eqn:L; [|discriminate]. injection Hg as ->.
    destruct v as [|b|n|s0|l|d0]; cbn [py_get] in Hd; try discriminate.
    injection Hd as <-. cbn [path field]. rewrite L. cbn [field].
    destruct (lookup "displayValue" d0); [right; reflexivity|left; reflexivity]. }
  destruct (py_get v "score" JNull) as [probe|e] eqn:Hp; cbn beta iota.
  2:{ eexists; split; [reflexivity|]. eapply py_get_quiet; eauto. }
  destruct (is_null probe) eqn:Hnp; cbn beta iota.
  { eexists; split; [reflexivity|]. exists dv, zero.
    split; [reflexivity|]. split; [discriminate|exact Hdv]. }
  destruct (py_get v "score" zero) as [sc|e] eqn:Hs; cbn beta iota.
  2:{ eexists; split; [reflexivity|]. eapply py_get_quiet; eauto. }
  eexists; split; [reflexivity|]. exists dv, sc. split; [reflexivity|].
  split; [|exact Hdv].
  destruct v as [|b|n|s0|l|d0]; try discriminate.
  cbn [py_get] in Hp, Hs. injection Hp as Hp. injection Hs as Hs.
  destruct (lookup "score" d0) as [x|]; subst.
  - intro E. subst. discriminate.
  - discriminate.
Qed.

Lemma normalize_audit_absent d k s :
  lookup k d = None -> normalize_audit (JDict d) k s = (Return default_audit, s).
Proof.
  intro L. unfold normalize_audit, bind, lift, ret. cbn [py_contains].
  unfold has_key. rewrite L. reflexivity.
Qed.

Lemma normalize_audit_readable d k s :
  audit_readable d k = true ->
  exists e, normalize_audit (JDict d) k s = (Return e, s) /\ audit_from (JDict d) k e.
Proof.
  intro Hr. destruct (normalize_audit_from (JDict d) k s) as [o [Ho Hs]].
  destruct o as [e|x]; [exists e; split; assumption|].
  exfalso. revert Ho. unfold audit_readable in Hr.
  unfold normalize_audit, bind, lift, ret. cbn [py_contains py_getitem].
  unfold has_key. destruct (lookup k d) as [v|]; cbn beta iota; [|discriminate].
  destruct v as [|b|n|s0|l|d0]; try discriminate.
  cbn [is_null negb py_get]. cbn beta iota.
  destruct (is_null _); discriminate.
Qed.

Lemma normalize_audits_from a ks : forall acc s,
  exists o, normalize_audits a ks acc s = (o, s) /\
            match o with
            | Return d => exists es, Forall2 (audit_from a) ks es /\
                                     d = set_all acc (combine ks es)
            | Raise x => quiet x
            end.
Proof.
  induction ks as [|k rest IH]; intros acc s.
  - exists (Return acc). split; [reflexivity|]. exists []. split; [constructor|reflexivity].
  - cbn [normalize_audits].
    destruct (normalize_audit_from a k s) as [o [Ho Hs]].
    destruct o as [e|x].
    + rewrite (bind_eq _ _ _ _ _ Ho).
      destruct (IH (dict_set acc k e) s) as [o' [Ho' Hs']].
      exists o'. split; [exact Ho'|].
      destruct o' as [d|x]; [|exact Hs'].
      destruct Hs' as [es [Hes ->]]. exists (e :: es).
      split; [constructor; assumption|reflexivity].
    + exists (Raise x). split; [|exact Hs]. apply bind_eq_raise. exact Ho.
Qed.

Lemma normalize_audits_readable d ks : forall acc s,
  forallb (audit_readable d) ks = true ->
  exists es, normalize_audits (JDict d) ks acc s
               = (Return (set_all acc (combine ks es)), s) /\
             Forall2 (audit_from (JDict d)) ks es.
Proof.
  induction ks as [|k rest IH]; intros acc s Hr.
  - exists []. split; [reflexivity|constructor].
  - cbn [forallb] in Hr. apply andb_true_iff in Hr. destruct Hr as [Hk Hrest].
    destruct (normalize_audit_readable d k s Hk) as [e [He Hs]].
    destruct (IH (dict_set acc k e) s Hrest) as [es [Hes HF]].
    exists (e :: es). split; [|constructor; assumption].
    cbn [normalize_audits]. rewrite (bind_eq _ _ _ _ _ He). exact Hes.
Qed.

Lemma normalize_audits_absent d ks : forall acc s,
  (forall k, In k ks -> lookup k d = None) ->
  normalize_audits (JDict d) ks acc s
    = (Return (set_all acc (map (fun k => (k, default_audit)) ks)), s).
Proof.
  induction ks as [|k rest IH]; intros acc s Hnone; [reflexivity|].
  cbn [normalize_audits].
  rewrite (bind_eq _ _ _ _ _ (normalize_audit_absent d k s (Hnone k (or_introl eq_refl)))).
  rewrite IH; [reflexivity|]. intros k' Hin. apply Hnone. right. exact Hin.
Qed.

Lemma normalize_categories_other c table : forall acc s,
  isinstance_dict c = false -> table <> [] ->
  exists e, normalize_categories c table acc s = (Raise e, s) /\ quiet e.
Proof.
  destruct table as [|[k pks] rest]; intros acc s Hc Hne; [congruence|].
  cbn [normalize_categories].
  destruct (normalize_category_other c k pks acc s Hc) as [e [He Hq]].
  exists e. split; [|exact Hq]. apply bind_eq_raise. exact He.
Qed.

Lemma normalize_categories_dict cs table : forall acc s,
  exists vs lines,
    normalize_categories (JDict cs) table acc s
      = (Return (set_all acc (combine (map fst table) (map score_dict vs))),
         add_lines s lines) /\
    Forall2 (category_from cs) table vs /\
    Forall (warning_from cs table) lines.
Proof.
  induction table as [|[k pks] rest IH]; intros acc s.
  - exists [], []. rewrite add_lines_nil. split; [reflexivity|]. split; constructor.
  - cbn [normalize_categories].
    destruct (normalize_category_dict cs k pks acc s) as [v [l1 [Hrun [Hv [Hfound Hl1]]]]].
    rewrite (bind_eq _ _ _ _ _ Hrun).
    destruct (IH (dict_set acc k (score_dict v)) (add_lines s l1))
      as [vs [l2 [Hrest [Hvs Hl2]]]].
    exists (v :: vs), (l1 ++ l2)%list. rewrite Hrest, add_lines_app.
    split; [reflexivity|]. split.
    + constructor; [|exact Hvs]. split; [exact Hv|].
      intros e He. apply (Hfound e He).
    + apply Forall_app. split.
      * destruct Hl1 as [->|[Hnone ->]]; [constructor|].
        constructor; [|constructor].
        exists (k, pks). split; [left; reflexivity|]. split; [exact Hnone|reflexivity].
      * eapply Forall_impl; [|exact Hl2].
        intros line [row [Hin Hrow]]. exists row. split; [right; exact Hin|exact Hrow].
Qed.

(** ** The body of the [try] *)

Lemma try_body_dict r data lhd cs s :
  resp_json r = Return data -> has_lighthouse data lhd ->
  lookup "categories" lhd = Some (JDict cs) ->
  exists vs lines o,
    Forall2 (category_from cs) category_keys vs /\
    Forall (warning_from cs category_keys) lines /\
    let s2 := Frame (stdout s ++ lines) (Some r) (Some required_audits) in
    normalize_audits (audits_of lhd) required_audits [] s2 = (o, s2) /\
    (match o with
     | Return auds => exists es, Forall2 (audit_from (audits_of lhd)) required_audits es /\
                                 auds = set_all [] (combine required_audits es)
     | Raise x => quiet x
     end) /\
    try_body (GetReturns r None) s =
      (match o with
       | Return auds =>
           Return (make_result
                     (set_all [] (combine (map fst category_keys) (map score_dict vs)))
                     auds)
       | Raise x => Raise x
       end, s2).
Proof.
  intros Hjson [top [-> Htop]] Hcat.
  destruct (normalize_categories_dict cs category_keys []
              (Frame (stdout s) (Some r) (required_audits_var s)))
    as [vs [lines [Hrun [Hvs Hlines]]]].
  set (s2 := Frame (stdout s ++ lines) (Some r) (Some required_audits)).
  destruct (normalize_audits_from (audits_of lhd) required_audits [] s2) as [o [Ho Hshape]].
  exists vs, lines, o. split; [exact Hvs|]. split; [exact Hlines|].
  cbv zeta. fold s2. split; [exact Ho|]. split; [exact Hshape|].
  unfold try_body, bind, ret, lift, raise, bind_response, bind_required_audits,
    read_required_audits.
  cbn beta iota. rewrite Hjson. cbn [py_contains py_getitem py_get]. unfold has_key.
  rewrite Htop. cbn [negb]. cbn beta iota.
  cbn [py_getitem py_get]. rewrite Hcat. cbn beta iota. rewrite Hrun.
  cbn [add_lines stdout response_var required_audits_var]. cbn beta iota.
  change (match lookup "audits" lhd with Some v => v | None => JDict [] end)
    with (audits_of lhd).
  fold s2. rewrite Ho. destruct o; reflexivity.
Qed.


Ltac unfold_body :=
  unfold try_body, bind, ret, lift, raise, bind_response, bind_required_audits,
    read_required_audits; cbn beta iota.

Ltac raised_early :=
  eexists; eexists; split;
  [ reflexivity
  | cbn beta iota; left; reflexivity ].

Lemma try_body_shape net s :
  exists o s', try_body net s = (o, s') /\
    match o with
    | Return _ =>
        exists r data lhd cs,
          net = GetReturns r None /\ resp_json r = Return data /\
          has_lighthouse data lhd /\ lookup "categories" lhd = Some (JDict cs)
    | Raise e => required_audits_var s' = required_audits_var s \/ quiet e
    end.
Proof.
  destruct net as [e|r [e|]]; [unfold_body; raised_early|unfold_body; raised_early|].
  destruct (resp_json r) as [data|e] eqn:Hjson.
  2:{ unfold_body. rewrite Hjson. raised_early. }
  destruct data as [|b|n|s0|l|top].
  1-3: unfold_body; rewrite Hjson; cbn [py_contains]; raised_early.
  1-2: unfold_body; rewrite Hjson; cbn [py_contains py_getitem];
       match goal with |- context [negb ?b] => destruct b end; cbn [negb]; raised_early.
  destruct (lookup "lighthouseResult" top) as [lh|] eqn:Htop.
  2:{ unfold_body. rewrite Hjson. cbn [py_contains]. unfold has_key. rewrite Htop.
      cbn [negb]. raised_early. }
  assert (Hraise : forall e,
            py_getitem lh "categories" = Raise e ->
            exists o s', try_body (GetReturns r None) s = (o, s') /\
              match o with
              | Return _ => False
              | Raise e => required_audits_var s' = required_audits_var s \/ quiet e
              end).
  { intros e He. unfold_body. rewrite Hjson. cbn [py_contains py_getitem].
    unfold has_key. rewrite Htop. cbn [negb]. cbn beta iota. rewrite He.
    raised_early. }
  destruct lh as [|b|n|s0|l|lhd].
  1-5: edestruct Hraise as [o [s' [Ho Hs]]]; [cbn [py_getitem]; reflexivity|];
       exists o, s'; split; [exact Ho|]; destruct o; [contradiction|exact Hs].
  clear Hraise.
  destruct (lookup "categories" lhd) as [c|] eqn:Hcat.
  2:{ unfold_body. rewrite Hjson. cbn [py_contains py_getitem].
      unfold has_key. rewrite Htop. cbn [negb]. cbn beta iota.
      cbn [py_getitem]. rewrite Hcat. raised_early. }
  destruct (isinstance_dict c) eqn:Hc.
  - destruct c as [|b|n|s0|l|cs]; try discriminate.
    assert (Hl : has_lighthouse (JDict top) lhd) by (exists top; split; [reflexivity|exact Htop]).
    destruct (try_body_dict r (JDict top) lhd cs s Hjson Hl Hcat)
      as [vs [lines [o [_ [_ [_ [Hshape Hrun]]]]]]].
    eexists; eexists; split; [exact Hrun|].
    destruct o as [auds|x].
    + exists r, (JDict top), lhd, cs. repeat split; assumption.
    + right. exact Hshape.
  - destruct (normalize_categories_other c category_keys []
                (Frame (stdout s) (Some r) (required_audits_var s)) Hc) as [e [He Hq]];
      [discriminate|].
    unfold_body. rewrite Hjson. cbn [py_contains py_getitem].
    unfold has_key. rewrite Htop. cbn [negb]. cbn beta iota.
    cbn [py_getitem]. rewrite Hcat. cbn beta iota. rewrite He.
    raised_early.
Qed.

(** ** The [except] clauses *)

Lemma on_request_exception_raises py_str e s :
  exists x, on_request_exception py_str e s = (Raise x, s).
Proof.
  unfold on_request_exception, bind, read_response, lift, raise. cbn beta iota.
  destruct (response_has_status (response_var s) 400).
  - destruct (match response_var s with Some r => resp_json r | None => Return JNull end)
      as [body|x]; cbn beta iota; [|eexists; reflexivity].
    destruct (py_get body "error" (JDict [])) as [err|x]; cbn beta iota;
      [|eexists; reflexivity].
    destruct (py_get err "message" (JStr "")) as [detail|x]; cbn beta iota;
      [|eexists; reflexivity].
    destruct (py_contains "API key not valid" detail) as [[|]|x]; cbn beta iota;
      eexists; reflexivity.
  - destruct (response_has_status (response_var s) 403); eexists; reflexivity.
Qed.

Lemma on_exception_returns url e s r s' :
  on_exception url e s = (Return r, s') ->
  exists l, required_audits_var s = Some l /\
            is_substring "score" (exn_msg e) = true /\ r = default_result l.
Proof.
  unfold on_exception, str_of_exn.
  destruct (is_substring "score" (exn_msg e)); [|discriminate].
  unfold bind, print, read_required_audits, ret. cbn beta iota.
  cbn [required_audits_var].
  destruct (required_audits_var s) as [l|]; [|discriminate].
  intro H. injection H as <- _. exists l. repeat split.
Qed.

Lemma handler_returns py_str url e s r s' :
  handler py_str url e s = (Return r, s') ->
  exists l, required_audits_var s = Some l /\ exn_cls e <> KeyError /\
            is_substring "score" (exn_msg e) = true /\ r = default_result l.
Proof.
  unfold handler. intro H.
  destruct (exn_cls e) eqn:Hcls.
  1:{ destruct (on_request_exception_raises py_str e s) as [x Hx]. congruence. }
  1:{ discriminate. }
  all: destruct (on_exception_returns url e s r s' H) as [l [H1 [H2 H3]]];
       exists l; repeat split; try assumption; discriminate.
Qed.

(** Whenever [_fetch_metrics], entered with [required_audits] unbound,
    returns, it is the [try] body that returned: the all-default result of
    the last [except] clause is never what a call hands back. *)
Lemma fetch_returns py_str net b k url strategy h s r s' :
  required_audits_var s = None ->
  _fetch_metrics py_str net b k url strategy h s = (Return r, s') ->
  try_body net s = (Return r, s').
Proof.
  intros Hunbound. unfold _fetch_metrics, try_except.
  destruct (try_body_shape net s) as [o [s1 [Hbody Hshape]]]. rewrite Hbody.
  destruct o as [res|e]; [intro H; exact H|].
  intro H. apply handler_returns in H.
  destruct H as [l [Hl [Hk [Hsc _]]]].
  destruct Hshape as [Hsame|[Hq|Hq]]; congruence.
Qed.

Lemma fetch_of_body py_str net b k url strategy h s r s' :
  try_body net s = (Return r, s') ->
  _fetch_metrics py_str net b k url strategy h s = (Return r, s').
Proof. intro H. unfold _fetch_metrics, try_except. rewrite H. reflexivity. Qed.

Lemma handler_stdout py_str url e s o s' :
  handler py_str url e s = (o, s') ->
  stdout s' = stdout s \/
  stdout s' = stdout (add_lines s [score_error_line url e]).
Proof.
  unfold handler. intro H.
  assert (Hgen : forall o s', on_exception url e s = (o, s') ->
            stdout s' = stdout s \/
            stdout s' = stdout (add_lines s [score_error_line url e])).
  { clear. intros o s'. unfold on_exception, str_of_exn.
    destruct (is_substring "score" (exn_msg e)).
    - unfold bind, print, read_required_audits, ret. cbn beta iota.
      cbn [required_audits_var].
      destruct (required_audits_var s); intro H; injection H as _ <-; right; reflexivity.
    - unfold raise. intro H. injection H as _ <-. left. reflexivity. }
  destruct (exn_cls e).
  1:{ destruct (on_request_exception_raises py_str e s) as [x Hx].
      rewrite Hx in H. injection H as _ <-. left. reflexivity. }
  1:{ unfold on_key_error, raise in H. injection H as _ <-. left. reflexivity. }
  all: exact (Hgen _ _ H).
Qed.

(** ** What a call returns *)

Ltac invert_Forall2 :=
  repeat match goal with
         | H : Forall2 _ (_ :: _) _ |- _ => inversion H; subst; clear H
         | H : Forall2 _ [] _ |- _ => inversion H; subst; clear H
         end.

(** What a successful call computed, in terms of the upstream payload. *)
Lemma call_returns_inv py_str self net url strategy r :
  call_get_metrics py_str self net url strategy = Return r ->
  exists r0 data lhd cs v1 v2 v3 v4 e1 e2 e3 e4 e5 e6 e7,
    net = GetReturns r0 None /\ resp_json r0 = Return data /\
    has_lighthouse data lhd /\ lookup "categories" lhd = Some (JDict cs) /\
    Forall2 (category_from cs) category_keys [v1; v2; v3; v4] /\
    Forall2 (audit_from (audits_of lhd)) required_audits [e1; e2; e3; e4; e5; e6; e7] /\
    r = make_result
          [ ("performance", score_dict v1); ("accessibility", score_dict v2);
            ("best-practices", score_dict v3); ("seo", score_dict v4) ]
          [ ("first-contentful-paint", e1); ("interactive", e2);
            ("largest-contentful-paint", e3); ("cumulative-layout-shift", e4);
            ("total-blocking-time", e5); ("server-response-time", e6);
            ("interaction-to-next-paint", e7) ].
Proof.
  unfold call_get_metrics, get_metrics. intro Hcall.
  destruct (_fetch_metrics py_str net (base_url self) (api_key self) url strategy
              (headers self) initial_frame) as [o s'] eqn:Hfetch.
  cbn [fst] in Hcall. subst o.
  apply fetch_returns in Hfetch; [|reflexivity].
  destruct (try_body_shape net initial_frame) as [o [s1 [Hbody Hshape]]].
  rewrite Hbody in Hfetch. injection Hfetch as -> ->.
  destruct Hshape as [r0 [data [lhd [cs [-> [Hjson [Hl Hcat]]]]]]].
  destruct (try_body_dict r0 data lhd cs initial_frame Hjson Hl Hcat)
    as [vs [lines [o [Hvs [_ [_ [Hauds Hrun]]]]]]].
  rewrite Hrun in Hbody. destruct o as [auds|x]; [|discriminate].
  injection Hbody as <- _.
  destruct Hauds as [es [Hes ->]].
  pose proof Hvs as Hvs'. pose proof Hes as Hes'.
  unfold category_keys in Hvs'. unfold required_audits in Hes'.
  invert_Forall2.
  do 15 eexists. repeat (split; [eassumption || reflexivity|]). reflexivity.
Qed.

Lemma audit_from_shape a k e : audit_from a k e -> audit_shape e.
Proof. intros [d [v [He [Hv _]]]]. exists d, v. split; assumption. Qed.

Lemma category_from_entry cs row v : category_from cs row v -> score_entry (score_dict v).
Proof. intros [Hv _]. exists v. split; [reflexivity|exact Hv]. Qed.

Lemma delivers_inj net data data' : delivers net data -> delivers net data' -> data = data'.
Proof.
  intros [r [-> Hr]] [r' [E Hr']]. injection E as <-. congruence.
Qed.

Lemma has_lighthouse_inj data lhd lhd' :
  has_lighthouse data lhd -> has_lighthouse data lhd' -> lhd = lhd'.
Proof.
  intros [top [-> Ht]] [top' [E Ht']]. injection E as <-. congruence.
Qed.

(** C1 as stated fails: an upstream audit with [displayValue: null] comes back
    with [displayValue] [None], which is not a string. *)
Lemma null_display_value_kept :
  run_sample payload_null_display = Return (result_of (run_sample payload_null_display)) /\
  path ["lighthouse_result"; "audits"; "interactive"; "displayValue"]
       (result_of (run_sample payload_null_display)) = Some JNull /\
  all_display_values_str (result_of (run_sample payload_null_display)) = false.
Proof. repeat split; vm_compute; reflexivity. Qed.

Lemma returned_result_shape py_str self net url strategy r :
  call_get_metrics py_str self net url strategy = Return r ->
  normalized r /\
  exists data, delivers net data /\
    forall audit d,
      In audit required_audits ->
      path ["lighthouse_result"; "audits"; audit; "displayValue"] r = Some d ->
      d = na \/ path ["lighthouseResult"; "audits"; audit; "displayValue"] data = Some d.
Proof.
  intro Hcall. apply call_returns_inv in Hcall.
  destruct Hcall as (r0 & data & lhd & cs & v1 & v2 & v3 & v4 &
                     e1 & e2 & e3 & e4 & e5 & e6 & e7 &
                     -> & Hjson & Hl & Hcat & Hvs & Hes & ->).
  split.
  - eexists; eexists. split; [reflexivity|].
    split; [reflexivity|]. split; [|split; [reflexivity|]].
    + unfold category_keys in Hvs. invert_Forall2.
      cbn [map snd]. repeat constructor; eapply category_from_entry; eassumption.
    + unfold required_audits in Hes. invert_Forall2.
      cbn [map snd]. repeat constructor; eapply audit_from_shape; eassumption.
  - exists data. split; [exists r0; split; [reflexivity|exact Hjson]|].
    intros audit d Hin Hpath.
    assert (Hup : forall k x, path [k; "displayValue"] (audits_of lhd) = Some x ->
              path ["lighthouseResult"; "audits"; k; "displayValue"] data = Some x).
    { intros k x. destruct Hl as [top [-> Htop]]. unfold audits_of.
      cbn [path field]. rewrite Htop. cbn [field].
      destruct (lookup "audits" lhd) as [a|]; [intro H; exact H|].
      cbn [field lookup]. discriminate. }
    unfold required_audits in Hes. invert_Forall2.
    repeat match goal with
           | H : audit_from _ _ _ |- _ =>
               destruct H as (? & ? & -> & _ & ?)
           end.
    unfold required_audits in Hin. cbn [In] in Hin.
    repeat (destruct Hin as [<-|Hin];
            [ vm_compute in Hpath; injection Hpath as ->;
              match goal with
              | H : d = na \/ _ |- _ =>
                  destruct H as [H|H]; [left; exact H|right; apply Hup; exact H]
              end | ]).
    contradiction.
Qed.

(** C1 (amended): every result [get_metrics] returns has exactly the four
    categories, each with a [score] that is not [None], and exactly the seven
    audits, each with a [displayValue] and a [score] that is not [None]; a
    [displayValue] is ["N/A"] or the upstream audit's [displayValue] as it
    came, so it is a string unless upstream sent something else. *)
Theorem get_metrics_result_shape py_str self net url strategy r :
  call_get_metrics py_str self net url strategy = Return r ->
  normalized r /\
  exists data, delivers net data /\
    forall audit d,
      In audit required_audits ->
      path ["lighthouse_result"; "audits"; audit; "displayValue"] r = Some d ->
      d = na \/ path ["lighthouseResult"; "audits"; audit; "displayValue"] data = Some d.
Proof. apply returned_result_shape. Qed.

Lemma get_metrics_result_shape_witness :
  run_sample payload_camel = Return sample_result_camel /\
  normalized sample_result_camel.
Proof.
  assert (H : call_get_metrics show_str sample_client (ok_response payload_camel)
                sample_url "desktop" = Return sample_result_camel)
    by (vm_compute; reflexivity).
  exact (conj H (proj1 (get_metrics_result_shape _ _ _ _ _ _ H))).
Defined.

(** C2 as stated fails: a found entry whose [score] is the text ["high"] has
    no numeric score, yet the text is recorded, not [0]. *)
Lemma text_score_kept :
  run_sample payload_text_score = Return (result_of (run_sample payload_text_score)) /\
  category_score (result_of (run_sample payload_text_score)) "performance"
    = Some (JStr "high") /\
  claimed_score (JDict [("score", JStr "high")]) = zero.
Proof. repeat split; vm_compute; reflexivity. Qed.

Lemma category_step_and_result py_str self net url strategy data lhd cs our_key candidates e :
  delivers net data -> has_lighthouse data lhd ->
  lookup "categories" lhd = Some (JDict cs) ->
  In (our_key, candidates) category_keys ->
  found_entry cs candidates = Some e ->
  (forall acc s,
     normalize_category (JDict cs) our_key candidates acc s
       = (Return (dict_set acc our_key (score_dict (expected_score e))), s)) /\
  (forall r, call_get_metrics py_str self net url strategy = Return r ->
             category_score r our_key = Some (expected_score e)).
Proof.
  intros Hd Hl Hcat Hin Hfound. split.
  - intros acc s.
    destruct (normalize_category_dict cs our_key candidates acc s)
      as [v [lines [Hrun [_ [Hv _]]]]].
    destruct (Hv e Hfound) as [-> ->]. rewrite add_lines_nil in Hrun. exact Hrun.
  - intros r Hcall. apply call_returns_inv in Hcall.
    destruct Hcall as (r0 & data' & lhd' & cs' & v1 & v2 & v3 & v4 &
                       e1 & e2 & e3 & e4 & e5 & e6 & e7 &
                       Hnet & Hjson & Hl' & Hcat' & Hvs & _ & ->).
    assert (data' = data).
    { eapply delivers_inj; [|exact Hd]. exists r0. split; assumption. }
    subst data'.
    assert (lhd' = lhd) by (eapply has_lighthouse_inj; eassumption). subst lhd'.
    assert (cs' = cs) by congruence. subst cs'.
    unfold category_keys in Hvs, Hin. invert_Forall2. cbn [In] in Hin.
    repeat match goal with
           | H : category_from _ _ _ |- _ => destruct H as [_ H]; cbn [snd] in H
           end.
    destruct Hin as [Hin|[Hin|[Hin|[Hin|[]]]]]; injection Hin as <- <-;
      match goal with
      | H : forall x, found_entry _ _ = Some x -> _ |- _ =>
          first [ rewrite <- (H e Hfound); reflexivity | fail ]
      end.
Qed.

(** C2 (amended): for a found category entry, the normaliser records [0]
    when the entry is [null] or not a mapping, has no [score], or has
    [score: null]; otherwise it records the raw [score] unchanged, whatever
    its type (an explicit [0] included).  The step never raises and prints
    nothing, and the value is the one in the result of a call that returns. *)
Theorem found_category_score py_str self net url strategy data lhd cs our_key candidates e :
  delivers net data -> has_lighthouse data lhd ->
  lookup "categories" lhd = Some (JDict cs) ->
  In (our_key, candidates) category_keys ->
  found_entry cs candidates = Some e ->
  (forall acc s,
     normalize_category (JDict cs) our_key candidates acc s
       = (Return (dict_set acc our_key (score_dict (expected_score e))), s)) /\
  (forall r, call_get_metrics py_str self net url strategy = Return r ->
             category_score r our_key = Some (expected_score e)).
Proof. apply category_step_and_result. Qed.

Lemma delivers_ok data : delivers (ok_response data) data.
Proof. eexists. split; reflexivity. Qed.

Lemma has_lighthouse_payload lhd : has_lighthouse (lighthouse_payload lhd) lhd.
Proof. eexists. split; reflexivity. Qed.

Lemma found_category_score_witness :
  delivers (ok_response payload_camel) payload_camel /\
  has_lighthouse payload_camel lighthouse_camel /\
  lookup "categories" lighthouse_camel = Some (JDict categories_camel) /\
  In ("accessibility", ["accessibility"]) category_keys /\
  found_entry categories_camel ["accessibility"] = Some (JDict [("score", JNull)]) /\
  category_score sample_result_camel "accessibility" = Some zero.
Proof.
  assert (Hd : delivers (ok_response payload_camel) payload_camel) by apply delivers_ok.
  assert (Hl : has_lighthouse payload_camel lighthouse_camel)
    by apply has_lighthouse_payload.
  assert (Hc : lookup "categories" lighthouse_camel = Some (JDict categories_camel))
    by reflexivity.
  assert (Hin : In ("accessibility", ["accessibility"]) category_keys)
    by (right; left; reflexivity).
  assert (Hf : found_entry categories_camel ["accessibility"]
               = Some (JDict [("score", JNull)])) by reflexivity.
  assert (Hcall : call_get_metrics show_str sample_client (ok_response payload_camel)
                    sample_url "desktop" = Return sample_result_camel)
    by (vm_compute; reflexivity).
  exact (conj Hd (conj Hl (conj Hc (conj Hin (conj Hf
           (proj2 (found_category_score show_str sample_client _ sample_url "desktop"
                     _ _ _ _ _ _ Hd Hl Hc Hin Hf) _ Hcall)))))).
Defined.

Lemma printed_lines py_str self net url strategy r0 data lhd cs line :
  net = GetReturns r0 None -> resp_json r0 = Return data ->
  has_lighthouse data lhd -> lookup "categories" lhd = Some (JDict cs) ->
  In line (printed_by_get_metrics py_str self net url strategy) ->
  warning_from cs category_keys line \/ exists e, line = score_error_line url e.
Proof.
  intros -> Hjson Hl Hcat. unfold printed_by_get_metrics, get_metrics, _fetch_metrics,
    try_except.
  destruct (try_body_dict r0 data lhd cs initial_frame Hjson Hl Hcat)
    as [vs [lines [o [_ [Hlines [_ [_ Hrun]]]]]]].
  rewrite Hrun. cbn [stdout initial_frame app] in *.
  destruct o as [auds|x].
  - cbn [snd stdout]. intro Hin. left.
    rewrite Forall_forall in Hlines. apply Hlines. exact Hin.
  - destruct (handler py_str url x _) as [o s'] eqn:Hh.
    apply handler_stdout in Hh. cbn [snd]. cbn [stdout add_lines] in Hh.
    intro Hin. destruct Hh as [Hh|Hh]; rewrite Hh in Hin.
    + left. rewrite Forall_forall in Hlines. apply Hlines. exact Hin.
    + apply in_app_or in Hin. destruct Hin as [Hin|[<-|[]]].
      * left. rewrite Forall_forall in Hlines. apply Hlines. exact Hin.
      * right. exists x. reflexivity.
Qed.

(** C3: when upstream has no [best-practices] category but a [bestPractices]
    entry with a score, that score is recorded under [best-practices] (by the
    loop step, which neither raises nor prints, and in the result of a call
    that returns), and no line the call prints is the missing-category
    diagnostic for [best-practices]. *)
Theorem best_practices_camel_case py_str self net url strategy data lhd cs d v :
  delivers net data -> has_lighthouse data lhd ->
  lookup "categories" lhd = Some (JDict cs) ->
  lookup "best-practices" cs = None ->
  lookup "bestPractices" cs = Some (JDict d) ->
  lookup "score" d = Some v -> v <> JNull ->
  (forall acc s,
     normalize_category (JDict cs) "best-practices" ["best-practices"; "bestPractices"] acc s
       = (Return (dict_set acc "best-practices" (score_dict v)), s)) /\
  (forall r, call_get_metrics py_str self net url strategy = Return r ->
             category_score r "best-practices" = Some v) /\
  (forall line, In line (printed_by_get_metrics py_str self net url strategy) ->
                is_missing_warning_for "best-practices" line = false).
Proof.
  intros Hd Hl Hcat Hkebab Hcamel Hscore Hv.
  assert (Hfound : found_entry cs ["best-practices"; "bestPractices"] = Some (JDict d)).
  { cbn [found_entry]. rewrite Hkebab, Hcamel. reflexivity. }
  assert (Hexp : expected_score (JDict d) = v).
  { cbn [expected_score]. rewrite Hscore. destruct v; congruence. }
  assert (Hin : In ("best-practices", ["best-practices"; "bestPractices"]) category_keys)
    by (right; right; left; reflexivity).
  destruct (category_step_and_result py_str self net url strategy data lhd cs _ _ _
              Hd Hl Hcat Hin Hfound) as [Hstep Hres].
  rewrite Hexp in Hstep, Hres.
  split; [exact Hstep|]. split; [exact Hres|].
  intros line Hline. destruct Hd as [r0 [Hnet Hjson]].
  destruct (printed_lines py_str self net url strategy r0 data lhd cs line
              Hnet Hjson Hl Hcat Hline) as [[row [Hrow [Hnone ->]]]|[e ->]].
  - unfold category_keys in Hrow. cbn [In] in Hrow.
    destruct Hrow as [<-|[<-|[<-|[<-|[]]]]]; try reflexivity.
    cbn [snd] in Hnone. congruence.
  - reflexivity.
Qed.

Lemma best_practices_camel_case_witness :
  delivers (ok_response payload_camel) payload_camel /\
  has_lighthouse payload_camel lighthouse_camel /\
  lookup "categories" lighthouse_camel = Some (JDict categories_camel) /\
  lookup "best-practices" categories_camel = None /\
  lookup "bestPractices" categories_camel = Some (JDict [("score", number 0.5)]) /\
  lookup "score" [("score", number 0.5)] = Some (number 0.5) /\
  number 0.5 <> JNull /\
  category_score sample_result_camel "best-practices" = Some (number 0.5) /\
  forallb (fun line => negb (is_missing_warning_for "best-practices" line))
          (printed_sample payload_camel) = true.
Proof.
  assert (Hd : delivers (ok_response payload_camel) payload_camel) by apply delivers_ok.
  assert (Hl : has_lighthouse payload_camel lighthouse_camel)
    by apply has_lighthouse_payload.
  assert (Hc : lookup "categories" lighthouse_camel = Some (JDict categories_camel))
    by reflexivity.
  assert (Hk : lookup "best-practices" categories_camel = None) by reflexivity.
  assert (Hb : lookup "bestPractices" categories_camel
               = Some (JDict [("score", number 0.5)])) by reflexivity.
  assert (Hs : lookup "score" [("score", number 0.5)] = Some (number 0.5)) by reflexivity.
  assert (Hv : number 0.5 <> JNull) by discriminate.
  assert (Hcall : call_get_metrics show_str sample_client (ok_response payload_camel)
                    sample_url "desktop" = Return sample_result_camel)
    by (vm_compute; reflexivity).
  assert (Hp : forallb (fun line => negb (is_missing_warning_for "best-practices" line))
                 (printed_sample payload_camel) = true) by (vm_compute; reflexivity).
  exact (conj Hd (conj Hl (conj Hc (conj Hk (conj Hb (conj Hs (conj Hv
           (conj (proj1 (proj2 (best_practices_camel_case show_str sample_client _
                                  sample_url "desktop" _ _ _ _ _ Hd Hl Hc Hk Hb Hs Hv))
                        _ Hcall) Hp)))))))).
Defined.

(** ** Failures and defaults *)

Lemma call_of_body py_str self net url strategy r s' :
  try_body net initial_frame = (Return r, s') ->
  call_get_metrics py_str self net url strategy = Return r.
Proof.
  intro H. unfold call_get_metrics, get_metrics.
  rewrite (fetch_of_body py_str net _ _ url strategy _ _ _ _ H). reflexivity.
Qed.

Lemma call_without_categories py_str self net url strategy data lhd :
  delivers net data -> has_lighthouse data lhd -> lookup "categories" lhd = None ->
  call_get_metrics py_str self net url strategy
    = Raise (Exn PlainException "Invalid API response format: 'categories'").
Proof.
  intros [r0 [-> Hjson]] [top [-> Htop]] Hcat.
  unfold call_get_metrics, get_metrics, _fetch_metrics, try_except.
  unfold try_body, bind, ret, lift, raise, bind_response. cbn beta iota.
  rewrite Hjson. cbn [py_contains py_getitem]. unfold has_key. rewrite Htop.
  cbn [negb]. cbn beta iota. cbn [py_getitem]. rewrite Hcat. reflexivity.
Qed.

Lemma call_with_readable_audits py_str self net url strategy data lhd cs auds :
  delivers net data -> has_lighthouse data lhd ->
  lookup "categories" lhd = Some (JDict cs) ->
  audits_of lhd = JDict auds ->
  forallb (audit_readable auds) required_audits = true ->
  exists r, call_get_metrics py_str self net url strategy = Return r /\ normalized r.
Proof.
  intros [r0 [-> Hjson]] Hl Hcat Hauds Hread.
  destruct (try_body_dict r0 data lhd cs initial_frame Hjson Hl Hcat)
    as [vs [lines [o [_ [_ [Ho [_ Hrun]]]]]]].
  cbv zeta in Ho. rewrite Hauds in Ho.
  destruct (normalize_audits_readable auds required_audits [] 
              (Frame (stdout initial_frame ++ lines) (Some r0) (Some required_audits))
              Hread) as [es [Hes _]].
  rewrite Hes in Ho. injection Ho as <-.
  eexists. 
  assert (Hcall := call_of_body py_str self _ url strategy _ _ Hrun).
  split; [exact Hcall|].
  exact (proj1 (returned_result_shape py_str self _ url strategy _ Hcall)).
Qed.




(** The last [except] clause entered with an error that mentions "score"
    before line 105 has bound [required_audits] (whatever was printed so far
    and whatever [response] is) prints its line and then raises
    [UnboundLocalError] instead of returning the all-default result. *)
Lemma score_error_before_audits_are_bound py_str url printed response :
  handler py_str url (Exn TypeError "unsupported score") (Frame printed response None)
  = (Raise (Exn UnboundLocalError
       "cannot access local variable 'required_audits' where it is not associated with a value"),
     add_lines (Frame printed response None)
       [score_error_line url (Exn TypeError "unsupported score")]).
Proof. reflexivity. Qed.

(** Once line 105 has run, the same clause does return the all-default
    result. *)
Lemma score_error_after_audits_are_bound py_str url e s :
  exn_cls e <> RequestException -> exn_cls e <> KeyError ->
  is_substring "score" (exn_msg e) = true ->
  required_audits_var s = Some required_audits ->
  handler py_str url e s
  = (Return (default_result required_audits), add_lines s [score_error_line url e]).
Proof.
  intros H1 H2 Hs Hb. unfold handler.
  assert (Hgen : on_exception url e s
                 = (Return (default_result required_audits),
                    add_lines s [score_error_line url e])).
  { unfold on_exception, str_of_exn. rewrite Hs.
    unfold bind, print, read_required_audits, ret. cbn beta iota.
    cbn [required_audits_var]. unfold add_lines. rewrite Hb. reflexivity. }
  destruct (exn_cls e); try congruence.
Qed.




End ClientProofs.

(* ================================================================== *)
(** * Part VIII.  Properties of the exporter *)
(* ================================================================== *)

Module ExporterProofs.
Import Py ApiClient Exporter Spec.

Lemma py_getitem_class c k e :
  py_getitem c k = Raise e -> exn_cls e = KeyError \/ exn_cls e = TypeError.
Proof.
  destruct c as [|b|[z|f]|s0|l|d0]; cbn [py_getitem]; intro H.
  1-6: injection H as <-; right; reflexivity.
  destruct (lookup k d0); [discriminate|]. injection H as <-. left. reflexivity.
Qed.

Lemma py_getitem_field c k v : py_getitem c k = Return v <-> field k c = Some v.
Proof.
  destruct c as [|b|[z|f]|s0|l|d0]; cbn [py_getitem field];
    try (split; discriminate).
  destruct (lookup k d0); split; congruence.
Qed.

(** The body of the [try] in terms of the score that can be read. *)
Lemma get_score_body_read data category v :
  read_score data category = Some v ->
  get_score_body data category =
    if is_null v then Return na
    else obind (py_gt_zero v) (fun positive =>
         if positive then py_times_100 v else Return zero).
Proof.
  unfold read_score, get_score_body. cbn [path].
  destruct (field "lighthouse_result" data) as [a|] eqn:E1; [|discriminate].
  destruct (field "categories" a) as [b|] eqn:E2; [|discriminate].
  destruct (field category b) as [c|] eqn:E3; [|discriminate].
  destruct (field "score" c) as [x|] eqn:E4; [|discriminate].
  intro H. injection H as ->.
  apply py_getitem_field in E1, E2, E3, E4.
  rewrite E1. cbn [obind]. rewrite E2. cbn [obind]. rewrite E3. cbn [obind].
  rewrite E4. reflexivity.
Qed.

Lemma get_score_unread data category :
  read_score data category = None -> get_score data category = Return na.
Proof.
  unfold read_score, get_score, get_score_body. cbn [path].
  assert (Hna : forall c k, field k c = None ->
            forall K, match obind (py_getitem c k) K with
                      | Return cell => Return cell
                      | Raise e => match exn_cls e with
                                   | KeyError | TypeError => Return na
                                   | _ => Raise e
                                   end
                      end = Return na).
  { intros c k Hf K. destruct (py_getitem c k) as [v|e] eqn:E.
    - apply py_getitem_field in E. congruence.
    - cbn [obind]. destruct (py_getitem_class _ _ _ E) as [->| ->]; reflexivity. }
  destruct (field "lighthouse_result" data) as [a|] eqn:E1; [|intros _; apply Hna; exact E1].
  apply py_getitem_field in E1. rewrite E1. cbn [obind].
  destruct (field "categories" a) as [b|] eqn:E2; [|intros _; apply Hna; exact E2].
  apply py_getitem_field in E2. rewrite E2. cbn [obind].
  destruct (field category b) as [c|] eqn:E3; [|intros _; apply Hna; exact E3].
  apply py_getitem_field in E3. rewrite E3. cbn [obind].
  destruct (field "score" c) as [x|] eqn:E4; [discriminate|intros _; apply Hna; exact E4].
Qed.

(** [get_score] never raises. *)
Lemma get_score_returns data category :
  get_score data category = Return (cell_of data category).
Proof.
  unfold cell_of.
  destruct (read_score data category) as [v|] eqn:Hr.
  - unfold get_score. rewrite (get_score_body_read _ _ _ Hr).
    destruct v as [|b|[z|f]|s0|l|d0]; cbn [is_null py_gt_zero obind]; try reflexivity.
    + destruct b; reflexivity.
    + destruct (Z.ltb 0 z); reflexivity.
    + destruct (PrimFloat.ltb 0 f); reflexivity.
  - rewrite (get_score_unread _ _ Hr). reflexivity.
Qed.

Lemma score_cell_desktop r category :
  score_cell (record_to_json r) "desktop" category = Return (cell_of (desktop r) category).
Proof. unfold score_cell. cbn [record_to_json py_getitem]. apply get_score_returns. Qed.

Lemma score_cell_mobile r category :
  score_cell (record_to_json r) "mobile" category = Return (cell_of (mobile r) category).
Proof. unfold score_cell. cbn [record_to_json py_getitem]. apply get_score_returns. Qed.

Lemma make_row_returns r : make_row (record_to_json r) = Return (flat_row r).
Proof.
  unfold make_row. rewrite !score_cell_desktop, !score_cell_mobile. reflexivity.
Qed.

Lemma flatten_exact records :
  flatten (map record_to_json records) = Return (map flat_row records).
Proof.
  induction records as [|r rest IH]; [reflexivity|].
  cbn [flatten map]. rewrite make_row_returns. cbn [obind]. rewrite IH. reflexivity.
Qed.

(** A cell of a row either is computed or the subscript before it raised. *)
Lemma score_cell_cases result side category :
  (exists data, field side result = Some data /\
                score_cell result side category = Return (cell_of data category)) \/
  (exists e, field side result = None /\ score_cell result side category = Raise e /\
             (exn_cls e = KeyError \/ exn_cls e = TypeError)).
Proof.
  unfold score_cell. destruct (py_getitem result side) as [data|e] eqn:E.
  - left. exists data. split; [apply py_getitem_field; exact E|].
    cbn [obind]. apply get_score_returns.
  - right. exists e. split.
    + destruct (field side result) as [v|] eqn:F; [|reflexivity].
      apply py_getitem_field in F. congruence.
    + split; [reflexivity|]. exact (py_getitem_class _ _ _ E).
Qed.

Ltac next_cell result side category :=
  let data := fresh "data" in
  let e := fresh "e" in
  let F := fresh "F" in
  let E := fresh "E" in
  let C := fresh "C" in
  destruct (score_cell_cases result side category) as [[data [F E]]|[e [F [E C]]]];
  rewrite E; cbn [obind].

(** What [make_row] does with any result. *)
Lemma make_row_cases result :
  (exists row, make_row result = Return row /\
               forall k, In k record_keys -> field k result <> None) \/
  (exists e k, make_row result = Raise e /\ In k record_keys /\ field k result = None /\
               (exn_cls e = KeyError \/ exn_cls e = TypeError)).
Proof.
  unfold make_row.
  destruct (py_getitem result "url") as [u|e0] eqn:Eu.
  2:{ right. exists e0, "url". split; [reflexivity|]. split; [left; reflexivity|].
      split; [|exact (py_getitem_class _ _ _ Eu)].
      destruct (field "url" result) as [v|] eqn:F; [|reflexivity].
      apply py_getitem_field in F. congruence. }
  cbn [obind]. apply py_getitem_field in Eu.
  next_cell result "desktop" "performance".
  2:{ right. exists e, "desktop". split; [reflexivity|].
      split; [right; left; reflexivity|]. split; assumption. }
  next_cell result "desktop" "accessibility"; [|congruence].
  next_cell result "desktop" "best-practices"; [|congruence].
  next_cell result "desktop" "seo"; [|congruence].
  next_cell result "mobile" "performance".
  2:{ right. exists e, "mobile". split; [reflexivity|].
      split; [right; right; left; reflexivity|]. split; assumption. }
  next_cell result "mobile" "accessibility"; [|congruence].
  next_cell result "mobile" "best-practices"; [|congruence].
  next_cell result "mobile" "seo"; [|congruence].
  left. eexists. split; [reflexivity|].
  intros k [<-|[<-|[<-|[]]]]; congruence.
Qed.

(** Flattening raises exactly when some result lacks one of the three keys,
    and then with a [KeyError] or a [TypeError]. *)
Lemma flatten_cases results :
  (exists rows, flatten results = Return rows /\
                forall result k, In result results -> In k record_keys ->
                                 field k result <> None) \/
  (exists e, flatten results = Raise e /\
             (exn_cls e = KeyError \/ exn_cls e = TypeError) /\
             exists result k, In result results /\ In k record_keys /\
                              field k result = None).
Proof.
  induction results as [|result rest IH].
  - left. exists []. split; [reflexivity|]. intros result k [].
  - cbn [flatten].
    destruct (make_row_cases result) as [[row [-> Hk]]|[e [k [-> [Hin [Hf Hc]]]]]];
      cbn [obind].
    + destruct IH as [[rows [-> Hks]]|[e [-> [Hc [r' [k [Hin [Hk' Hf]]]]]]]]; cbn [obind].
      * left. eexists. split; [reflexivity|].
        intros r' k [<-|Hin] Hk'; [apply Hk; exact Hk'|apply (Hks r' k Hin Hk')].
      * right. exists e. split; [reflexivity|]. split; [exact Hc|].
        exists r', k. split; [right; exact Hin|]. split; assumption.
    + right. exists e. split; [reflexivity|]. split; [exact Hc|].
      exists result, k. split; [left; reflexivity|]. split; assumption.
Qed.

Lemma export_missing_key lib results format result k :
  String.eqb format "json" = false ->
  In result results -> In k record_keys -> field k result = None ->
  exists e, export_results lib results format = Raise e /\
            (exn_cls e = KeyError \/ exn_cls e = TypeError).
Proof.
  intros Hj Hin Hk Hf. unfold export_results. rewrite Hj.
  destruct (flatten_cases results) as [[rows [_ Hks]]|[e [-> [Hc _]]]].
  - exfalso. exact (Hks result k Hin Hk Hf).
  - exists e. split; [reflexivity|exact Hc].
Qed.

Lemma columns_of_rows results seen :
  seen = column_names ->
  fold_left (fun seen row => add_new seen (keys row)) (map flat_row results) seen
  = column_names.
Proof.
  intros ->. induction results as [|r rest IH]; [reflexivity|].
  cbn [map fold_left].
  change (add_new column_names (keys (flat_row r))) with column_names. exact IH.
Qed.

Lemma data_frame_exact records : pd_DataFrame (map flat_row records) = frame_of records.
Proof.
  unfold pd_DataFrame, frame_of. destruct records as [|r rest]; [reflexivity|].
  assert (Hcols : fold_left (fun seen row => add_new seen (keys row))
                    (map flat_row (r :: rest)) [] = column_names).
  { cbn [map fold_left].
    change (add_new [] (keys (flat_row r))) with column_names.
    apply columns_of_rows. reflexivity. }
  rewrite Hcols. f_equal. rewrite map_map. reflexivity.
Qed.

Lemma csv_row_cells r : map Cell (table_row r) = csv_row r.
Proof. reflexivity. Qed.

Lemma csv_of_frame records :
  map Header (columns (frame_of records)) :: map (map Cell) (table_rows (frame_of records))
  = csv_of records.
Proof.
  unfold frame_of, csv_of. cbn [columns table_rows].
  destruct records as [|r rest]; [reflexivity|].
  rewrite map_map. reflexivity.
Qed.

(** The CSV export of a batch of records: the library's verdict on the table
    decides between its exception and the header with one record per row. *)
Lemma export_csv lib records :
  export_results lib (map record_to_json records) "csv"
  = rendered (csv_refuses lib (frame_of records)) (CsvText (csv_of records)).
Proof.
  unfold export_results.
  change (String.eqb "csv" "json") with false.
  change (String.eqb "csv" "csv") with true.
  cbv iota. rewrite flatten_exact. cbn [obind]. rewrite data_frame_exact.
  unfold to_csv, rendered. destruct (csv_refuses lib (frame_of records)); [reflexivity|].
  cbn [obind]. rewrite csv_of_frame. reflexivity.
Qed.

Lemma export_excel lib records :
  export_results lib (map record_to_json records) "excel"
  = rendered (excel_refuses lib (frame_of records))
             (ExcelBytes "Analysis Results" (frame_of records)).
Proof.
  unfold export_results.
  change (String.eqb "excel" "json") with false.
  change (String.eqb "excel" "csv") with false.
  change (String.eqb "excel" "excel") with true.
  cbv iota. rewrite flatten_exact. cbn [obind]. rewrite data_frame_exact.
  reflexivity.
Qed.

Lemma get_score_positive data category v :
  read_score data category = Some v -> is_positive v = true ->
  get_score data category = Return (times_100 v).
Proof.
  intros Hr Hp. unfold get_score. rewrite (get_score_body_read _ _ _ Hr).
  destruct v as [|b|[z|f]|s0|l|d0]; cbn [is_positive] in Hp; try discriminate;
    cbn [is_null py_gt_zero obind]; rewrite Hp; reflexivity.
Qed.

Lemma get_score_zero data category v :
  read_score data category = Some v -> exactly_zero v ->
  get_score data category = Return zero.
Proof.
  intros Hr Hz. unfold get_score. rewrite (get_score_body_read _ _ _ Hr).
  destruct Hz as [->|[->| ->]]; reflexivity.
Qed.

Lemma get_score_not_positive data category v :
  read_score data category = Some v -> is_numeric v = true -> is_positive v = false ->
  get_score data category = Return zero.
Proof.
  intros Hr Hn Hp. unfold get_score. rewrite (get_score_body_read _ _ _ Hr).
  destruct v as [|b|[z|f]|s0|l|d0]; cbn [is_numeric] in Hn; try discriminate;
    cbn [is_positive] in Hp; cbn [is_null py_gt_zero obind]; rewrite Hp; reflexivity.
Qed.

Lemma get_score_not_numeric data category v :
  read_score data category = Some v -> is_numeric v = false ->
  get_score data category = Return na.
Proof.
  intros Hr Hn. unfold get_score. rewrite (get_score_body_read _ _ _ Hr).
  destruct v as [|b|[z|f]|s0|l|d0]; cbn [is_numeric] in Hn; try discriminate; reflexivity.
Qed.

Lemma get_score_na data category v :
  get_score data category = Return na ->
  read_score data category = Some v -> is_numeric v = false.
Proof.
  intros Hna Hr. unfold get_score in Hna. rewrite (get_score_body_read _ _ _ Hr) in Hna.
  destruct v as [|b|[z|f]|s0|l|d0]; try reflexivity; exfalso;
    cbn [is_null py_gt_zero obind] in Hna.
  - destruct b; discriminate.
  - destruct (Z.ltb 0 z); discriminate.
  - destruct (PrimFloat.ltb 0 f); discriminate.
Qed.

(** C8, where it fails: a result without its [desktop] half makes the CSV
    export raise [KeyError: 'desktop'] (the subscripts of lines 100-108 are
    outside the [try] of [get_score]), so an export does raise on a malformed
    record; and a score that is there and can be read, the text ["high"],
    is rendered as ['N/A']. *)
Lemma malformed_record_raises_and_text_score_is_na :
  export_results lenient [result_without_desktop] "csv"
    = Raise (Exn KeyError "'desktop'") /\
  read_score (result_with_performance (JStr "high")) "performance" = Some (JStr "high") /\
  get_score (result_with_performance (JStr "high")) "performance" = Return na.
Proof. split; [|split]; reflexivity. Qed.

(** C8, amended.  For a batch of two records, each a dict with its [url],
    [desktop] and [mobile], whatever those two hold: flattening does not
    raise, and the CSV export hands the library the table of nine columns and
    two rows, so it gives the header record and exactly two data records
    unless the library refuses the table and raises.  A result that lacks one
    of the three keys makes every export but the JSON one raise a [KeyError]
    or a [TypeError].  A cell is [score * 100] when the score read from the
    record is positive (so [0.87] gives [87]), [0] when it is exactly zero or
    any other number that is not positive, and ['N/A'] exactly when no number
    can be read: the path to the score is broken, or what is there is [None]
    or not a number. *)
Theorem csv_export_rows_and_cells :
  (forall lib r1 r2,
     flatten [record_to_json r1; record_to_json r2] = Return [flat_row r1; flat_row r2] /\
     export_results lib [record_to_json r1; record_to_json r2] "csv"
       = match csv_refuses lib (Table column_names [table_row r1; table_row r2]) with
         | Some e => Raise e
         | None => Return (CsvText [map Header column_names; csv_row r1; csv_row r2])
         end) /\
  (forall lib results format result k,
     String.eqb format "json" = false ->
     In result results -> In k record_keys -> field k result = None ->
     exists e, export_results lib results format = Raise e /\
               (exn_cls e = KeyError \/ exn_cls e = TypeError)) /\
  (forall data category v,
     read_score data category = Some v ->
     (is_positive v = true -> get_score data category = Return (times_100 v)) /\
     (exactly_zero v -> get_score data category = Return zero) /\
     (is_numeric v = true -> is_positive v = false ->
      get_score data category = Return zero) /\
     (is_numeric v = false -> get_score data category = Return na)) /\
  (forall data category,
     read_score data category = None -> get_score data category = Return na) /\
  (forall data category,
     get_score data category = Return na ->
     forall v, read_score data category = Some v -> is_numeric v = false) /\
  get_score (result_with_performance (number 0.87)) "performance" = Return (number 87) /\
  (forall u m,
     nth 1 (csv_row (Analysis u (result_with_performance (number 0.87)) m)) (Cell None)
       = Cell (Some (number 87))).
Proof.
  split.
  { intros lib r1 r2. split; [exact (flatten_exact [r1; r2])|].
    exact (export_csv lib [r1; r2]). }
  split; [exact export_missing_key|].
  split.
  { intros data category v Hr. split; [|split; [|split]].
    - apply get_score_positive; assumption.
    - intro H. apply get_score_zero with (v := v); assumption.
    - apply get_score_not_positive; assumption.
    - apply get_score_not_numeric; assumption. }
  split; [exact get_score_unread|].
  split.
  { intros data category Hna v Hr. eapply get_score_na; eassumption. }
  split; [vm_compute; reflexivity|].
  intros u m. reflexivity.
Qed.

Lemma csv_export_rows_and_cells_witness :
  (read_score (result_with_performance (number 0.87)) "performance" = Some (number 0.87) /\
   is_positive (number 0.87) = true /\
   get_score (result_with_performance (number 0.87)) "performance"
     = Return (times_100 (number 0.87))) /\
  (read_score (result_with_performance JNull) "performance" = Some JNull /\
   is_numeric JNull = false /\
   get_score (result_with_performance JNull) "performance" = Return na) /\
  (read_score (JDict []) "performance" = None /\
   get_score (JDict []) "performance" = Return na) /\
  (String.eqb "csv" "json" = false /\
   In result_without_desktop [result_without_desktop] /\
   In "desktop" record_keys /\
   field "desktop" result_without_desktop = None /\
   exists e, export_results without_csv [result_without_desktop] "csv" = Raise e /\
             (exn_cls e = KeyError \/ exn_cls e = TypeError)).
Proof.
  assert (Hr : read_score (result_with_performance (number 0.87)) "performance"
               = Some (number 0.87)) by reflexivity.
  assert (Hp : is_positive (number 0.87) = true) by reflexivity.
  assert (Hr0 : read_score (result_with_performance JNull) "performance" = Some JNull)
    by reflexivity.
  assert (Hn0 : is_numeric JNull = false) by reflexivity.
  assert (Hu : read_score (JDict []) "performance" = None) by reflexivity.
  assert (Hf : String.eqb "csv" "json" = false) by reflexivity.
  assert (Hin : In result_without_desktop [result_without_desktop])
    by (left; reflexivity).
  assert (Hk : In "desktop" record_keys) by (right; left; reflexivity).
  assert (Hd : field "desktop" result_without_desktop = None) by reflexivity.
  pose (cells := proj1 (proj2 (proj2 csv_export_rows_and_cells))).
  split.
  { exact (conj Hr (conj Hp (proj1 (cells _ _ _ Hr) Hp))). }
  split.
  { exact (conj Hr0 (conj Hn0 (proj2 (proj2 (proj2 (cells _ _ _ Hr0))) Hn0))). }
  split.
  { exact (conj Hu (proj1 (proj2 (proj2 (proj2 csv_export_rows_and_cells))) _ _ Hu)). }
  exact (conj Hf (conj Hin (conj Hk (conj Hd
           (proj1 (proj2 csv_export_rows_and_cells) without_csv _ _ _ _ Hf Hin Hk Hd))))).
Defined.

End ExporterProofs.

(* ================================================================== *)
(** * Part IX.  More about [validate_url] *)
(* ================================================================== *)

Module ValidatorExtras.
Import Regex Main Spec ValidatorProofs.
Local Open Scope list_scope.

(** ** White space *)

Lemma rep_clean bad step :
  consumes_clean bad step -> forall n lo, consumes_clean bad (rep step lo n).
Proof.
  intros Hstep n. induction n as [|n IH]; intros lo st st' Hin; cbn [rep] in Hin.
  - cbn [app] in Hin. destruct (Nat.eqb lo 0); [|contradiction].
    destruct Hin as [<-|[]]. exists []. split; [reflexivity|constructor].
  - apply in_app_or in Hin. destruct Hin as [Hin|Hin].
    + apply in_flat_map in Hin. destruct Hin as [mid [Hmid Hx]].
      destruct (Hstep _ _ Hmid) as [p1 [E1 F1]].
      destruct (IH _ _ _ Hx) as [p2 [E2 F2]].
      exists (p1 ++ p2). split; [rewrite E1, E2, app_assoc; reflexivity|].
      apply Forall_app. split; assumption.
    + destruct (Nat.eqb lo 0); [|contradiction].
      destruct Hin as [<-|[]]. exists []. split; [reflexivity|constructor].
Qed.

Lemma run_clean bad r : chars_avoid bad r -> consumes_clean bad (run r).
Proof.
  induction r as [| |p|a IHa b IHb|a IHa b IHb|lo hi a IHa];
    intros Hr st st' Hin; cbn [run] in Hin; cbn [chars_avoid] in Hr.
  - destruct (Nat.eqb (fst st) 0); [|contradiction].
    destruct Hin as [<-|[]]. exists []. split; [reflexivity|constructor].
  - destruct (snd st) as [|c [|c' rest]] eqn:E; try contradiction.
    + destruct Hin as [<-|[]]. exists []. split; [rewrite E; reflexivity|constructor].
    + destruct (N.eqb c 10); [|contradiction].
      destruct Hin as [<-|[]]. exists []. split; [rewrite E; reflexivity|constructor].
  - destruct (snd st) as [|c rest] eqn:E; [contradiction|].
    destruct (p c) eqn:Ep; [|contradiction].
    destruct Hin as [<-|[]]. exists [c]. split; [reflexivity|].
    constructor; [|constructor].
    destruct (bad c) eqn:Eb; [|reflexivity]. rewrite (Hr c Eb) in Ep. discriminate.
  - destruct Hr as [Ha Hb].
    apply in_flat_map in Hin. destruct Hin as [mid [Hmid Hx]].
    destruct (IHa Ha _ _ Hmid) as [p1 [E1 F1]].
    destruct (IHb Hb _ _ Hx) as [p2 [E2 F2]].
    exists (p1 ++ p2). split; [rewrite E1, E2, app_assoc; reflexivity|].
    apply Forall_app. split; assumption.
  - destruct Hr as [Ha Hb].
    apply in_app_or in Hin. destruct Hin as [Hin|Hin]; [apply (IHa Ha)|apply (IHb Hb)];
      exact Hin.
  - destruct hi as [h|]; eapply rep_clean; eauto.
Qed.

Lemma ascii_space_cases c :
  ascii_space c = true ->
  In c [9; 10; 11; 12; 13; 28; 29; 30; 31; 32]%N.
Proof.
  unfold ascii_space, in_range. intro H.
  assert (Hr : (9 <= c <= 13 \/ 28 <= c <= 31 \/ c = 32)%N).
  { apply orb_true_iff in H. destruct H as [H|H]; [apply orb_true_iff in H; destruct H as [H|H]|].
    - apply andb_true_iff in H. destruct H as [H1 H2].
      apply N.leb_le in H1, H2. left. lia.
    - apply andb_true_iff in H. destruct H as [H1 H2].
      apply N.leb_le in H1, H2. right. left. lia.
    - apply N.eqb_eq in H. right. right. exact H. }
  cbn [In].
  assert (c = 9 \/ c = 10 \/ c = 11 \/ c = 12 \/ c = 13 \/ c = 28 \/ c = 29 \/
          c = 30 \/ c = 31 \/ c = 32)%N by lia.
  intuition.
Qed.

Ltac space_case :=
  let c := fresh "c" in let H := fresh "H" in
  intros c H; apply ascii_space_cases in H; cbn [In] in H;
  repeat (destruct H as [<-|H]; [reflexivity|]); contradiction.

Lemma url_body_avoids_space U : chars_avoid ascii_space (url_body U).
Proof.
  unfold url_body, hostname, dotted_quad, octet.
  cbn [cat lit one_of opt plus map of_ascii_string list_ascii_of_string chars_avoid].
  repeat split; space_case.
Qed.

(** X12: an accepted string is free of ASCII white space up to its end, where a
    single newline may follow: no accepted URL contains a space, a tab or a
    line break inside. *)
Theorem accepted_has_no_space U s :
  validate_url U s = true ->
  exists pre t,
    s = pre ++ t /\ Forall (fun c => ascii_space c = false) pre /\
    (t = [] \/ t = [newline]).
Proof.
  unfold validate_url, pattern. intro Hacc.
  apply matches_true in Hacc. destruct Hacc as [st Hst].
  rewrite run_seq in Hst. apply in_flat_map in Hst.
  destruct Hst as [[p t] [Hbody Heol]].
  destruct (run_clean ascii_space (url_body U) (url_body_avoids_space U) _ _ Hbody)
    as [pre [Hpre Hclean]].
  cbn [snd] in Hpre. exists pre, t. split; [exact Hpre|]. split; [exact Hclean|].
  cbn [run snd] in Heol. destruct t as [|c [|c' rest]]; [left; reflexivity| |contradiction].
  destruct (N.eqb c 10) eqn:Ec; [|contradiction].
  apply N.eqb_eq in Ec. subst c. right. reflexivity.
Qed.

Lemma accepted_has_no_space_witness :
  validate_url ascii_only (of_ascii_string "http://localhost:8080/a?b=c") = true /\
  exists pre t,
    of_ascii_string "http://localhost:8080/a?b=c" = pre ++ t /\
    Forall (fun c => ascii_space c = false) pre /\ (t = [] \/ t = [newline]).
Proof.
  assert (H : validate_url ascii_only (of_ascii_string "http://localhost:8080/a?b=c") = true)
    by (vm_compute; reflexivity).
  exact (conj H (accepted_has_no_space ascii_only _ H)).
Defined.

(** ** The scheme *)

Lemma run_seq_inv a b st st' :
  In st' (run (Seq a b) st) -> exists mid, In mid (run a st) /\ In st' (run b mid).
Proof. rewrite run_seq. intro H. apply in_flat_map in H. exact H. Qed.

Lemma run_chr_inv p st st' :
  In st' (run (Chr p) st) ->
  exists c rest, snd st = c :: rest /\ p c = true /\ snd st' = rest.
Proof.
  cbn [run]. destruct (snd st) as [|c rest]; [contradiction|].
  destruct (p c) eqn:E; [|contradiction].
  intros [<-|[]]. exists c, rest. repeat split. exact E.
Qed.

Lemma run_opt_inv a st st' :
  In st' (run (opt a) st) -> st' = st \/ In st' (run a st).
Proof.
  unfold opt. cbn [run rep Nat.eqb Nat.pred]. intro H.
  apply in_app_or in H. destruct H as [H|[<-|[]]]; [|left; reflexivity].
  apply in_flat_map in H. destruct H as [mid [Hmid Hx]].
  cbn [app In] in Hx. destruct Hx as [<-|[]]. right. exact Hmid.
Qed.

Lemma run_bol_inv st st' : In st' (run Bol st) -> st' = st.
Proof.
  cbn [run]. destruct (Nat.eqb (fst st) 0); [|contradiction]. intros [<-|[]]. reflexivity.
Qed.

Ltac eat_char H :=
  let c := fresh "c" in let rest := fresh "rest" in
  let Hs := fresh "Hs" in let Hp := fresh "Hp" in let Hr := fresh "Hr" in
  apply run_chr_inv in H; destruct H as (c & rest & Hs & Hp & Hr).

(** X13: every accepted string begins with [http://] or [https://], letters
    compared as [re.IGNORECASE] compares them. *)
Theorem accepted_has_scheme U s :
  validate_url U s = true ->
  starts_with U (of_ascii_string "http://") s = true \/
  starts_with U (of_ascii_string "https://") s = true.
Proof.
  unfold validate_url, pattern. intro Hacc.
  apply matches_true in Hacc. destruct Hacc as [st Hst].
  apply run_seq_inv in Hst. destruct Hst as [end_ [Hbody _]].
  unfold url_body in Hbody.
  cbn [cat lit map of_ascii_string list_ascii_of_string] in Hbody.
  apply run_seq_inv in Hbody. destruct Hbody as [s0 [H0 Hbody]].
  apply run_bol_inv in H0. subst s0.
  apply run_seq_inv in Hbody. destruct Hbody as [s4 [Hhttp Hbody]].
  apply run_seq_inv in Hhttp. destruct Hhttp as [s1 [Hh Hhttp]].
  apply run_seq_inv in Hhttp. destruct Hhttp as [s2 [Ht1 Hhttp]].
  apply run_seq_inv in Hhttp. destruct Hhttp as [s3 [Ht2 Hp]].
  eat_char Hh. eat_char Ht1. eat_char Ht2. eat_char Hp.
  apply run_seq_inv in Hbody. destruct Hbody as [s5 [Hopt Hbody]].
  apply run_seq_inv in Hbody. destruct Hbody as [s8 [Hsep _]].
  apply run_seq_inv in Hsep. destruct Hsep as [s6 [Hc Hsep]].
  apply run_seq_inv in Hsep. destruct Hsep as [s7 [Hsl1 Hsl2]].
  eat_char Hc. eat_char Hsl1. eat_char Hsl2.
  cbn [snd] in *.
  apply run_opt_inv in Hopt. destruct Hopt as [->|Hopt].
  - left. subst.
    repeat match goal with H : snd _ = _ |- _ => rewrite H in * end.
    cbn [starts_with of_ascii_string map list_ascii_of_string].
    repeat match goal with H : _ = true |- _ => rewrite H; clear H end.
    reflexivity.
  - right. eat_char Hopt. subst.
    repeat match goal with H : snd _ = _ |- _ => rewrite H in * end.
    cbn [starts_with of_ascii_string map list_ascii_of_string].
    repeat match goal with H : _ = true |- _ => rewrite H; clear H end.
    reflexivity.
Qed.

Lemma accepted_has_scheme_witness :
  validate_url ascii_only (of_ascii_string "HTTPS://Example.COM/Path") = true /\
  (starts_with ascii_only (of_ascii_string "http://")
     (of_ascii_string "HTTPS://Example.COM/Path") = true \/
   starts_with ascii_only (of_ascii_string "https://")
     (of_ascii_string "HTTPS://Example.COM/Path") = true).
Proof.
  assert (H : validate_url ascii_only (of_ascii_string "HTTPS://Example.COM/Path") = true)
    by (vm_compute; reflexivity).
  exact (conj H (accepted_has_scheme ascii_only _ H)).
Defined.

(** ** Letter case *)

Lemma flat_map_map {A B C} (g : B -> list C) (h : A -> B) (l : list A) :
  flat_map g (map h l) = flat_map (fun x => g (h x)) l.
Proof. induction l as [|x l IH]; [reflexivity|]. cbn [map flat_map]. rewrite IH. reflexivity. Qed.

Lemma map_flat_map {A B C} (h : B -> C) (g : A -> list B) (l : list A) :
  map h (flat_map g l) = flat_map (fun x => map h (g x)) l.
Proof.
  induction l as [|x l IH]; [reflexivity|].
  cbn [flat_map]. rewrite map_app, IH. reflexivity.
Qed.

Lemma flat_map_commute f (g : pos -> list pos) (step : pos -> list pos) st :
  commutes_with f step -> commutes_with f g ->
  flat_map g (step (on_rest f st)) = map (on_rest f) (flat_map g (step st)).
Proof.
  intros Hs Hg. rewrite Hs, flat_map_map, map_flat_map.
  apply flat_map_ext. intro x. apply Hg.
Qed.

Lemma rep_commutes f step :
  commutes_with f step -> forall n lo, commutes_with f (rep step lo n).
Proof.
  intros Hstep n. induction n as [|n IH]; intros lo st; cbn [rep].
  - cbn [app]. destruct (Nat.eqb lo 0); reflexivity.
  - rewrite map_app. f_equal.
    + apply flat_map_commute; [exact Hstep|apply IH].
    + destruct (Nat.eqb lo 0); reflexivity.
Qed.

Lemma run_commutes f r :
  (forall c, N.eqb (f c) 10 = N.eqb c 10) ->
  chars_invariant f r -> commutes_with f (run r).
Proof.
  intro Hnl.
  induction r as [| |p|a IHa b IHb|a IHa b IHb|lo hi a IHa];
    intros Hr st; cbn [chars_invariant] in Hr; cbn [run].
  - cbn [on_rest fst]. destruct (Nat.eqb (fst st) 0); reflexivity.
  - cbn [on_rest snd]. destruct (snd st) as [|c [|c' rest]]; try reflexivity.
    cbn [map]. rewrite Hnl. destruct (N.eqb c 10); reflexivity.
  - cbn [on_rest snd fst]. destruct (snd st) as [|c rest]; [reflexivity|].
    cbn [map]. rewrite Hr. destruct (p c); reflexivity.
  - destruct Hr as [Ha Hb]. apply flat_map_commute; [apply IHa|apply IHb]; assumption.
  - destruct Hr as [Ha Hb]. rewrite map_app, (IHa Ha), (IHb Hb). reflexivity.
  - destruct hi as [h|].
    + apply rep_commutes. apply IHa. exact Hr.
    + cbn [on_rest snd]. rewrite length_map.
      apply (rep_commutes f (run a) (IHa Hr) (lo + List.length (snd st)) lo st).
Qed.

Lemma upper_cases c :
  in_range 65 90 c = true -> In c (map N.of_nat (seq 65 26)).
Proof.
  unfold in_range. intro H. apply andb_true_iff in H. destruct H as [H1 H2].
  apply N.leb_le in H1, H2. apply in_map_iff. exists (N.to_nat c).
  split; [apply N2Nat.id|]. apply in_seq. lia.
Qed.

Ltac letter_case :=
  let c := fresh "c" in
  intro c; unfold ascii_lower at 1;
  destruct (in_range 65 90 c) eqn:E; [|reflexivity];
  apply upper_cases in E; cbn [map seq In] in E;
  repeat (destruct E as [<-|E]; [reflexivity|]); contradiction.

Lemma pattern_ignores_case U : chars_invariant ascii_lower (pattern U).
Proof.
  unfold pattern, url_body, hostname, dotted_quad, octet.
  cbn [cat lit one_of opt plus map of_ascii_string list_ascii_of_string chars_invariant].
  repeat split; letter_case.
Qed.

Lemma lower_keeps_newline c : N.eqb (ascii_lower c) 10 = N.eqb c 10.
Proof.
  unfold ascii_lower. destruct (in_range 65 90 c) eqn:E; [|reflexivity].
  unfold in_range in E. apply andb_true_iff in E. destruct E as [H1 H2].
  apply N.leb_le in H1, H2.
  destruct (N.eqb_spec (c + 32) 10), (N.eqb_spec c 10); try reflexivity; lia.
Qed.

(** X14: the verdict does not depend on the case of ASCII letters: a string and
    the same string with its ASCII letters lowered are both accepted or both
    rejected. *)
Theorem validate_url_ignores_case U s :
  validate_url U (lower_ascii_letters s) = validate_url U s.
Proof.
  unfold validate_url, matches, lower_ascii_letters.
  change (0, map ascii_lower s) with (on_rest ascii_lower (0, s)).
  rewrite (run_commutes ascii_lower (pattern U) lower_keeps_newline
             (pattern_ignores_case U) (0, s)).
  destruct (run (pattern U) (0, s)); reflexivity.
Qed.

End ValidatorExtras.

(* ================================================================== *)
(** * Part X.  More about the API client *)
(* ================================================================== *)

Module ClientExtras.
Import Py ApiClient Spec ClientProofs.

(** ** Audits, exactly *)

Lemma normalize_audit_dict_exact d k s :
  audit_readable d k = true ->
  normalize_audit (JDict d) k s = (Return (expected_audit (lookup k d)), s).
Proof.
  unfold audit_readable, normalize_audit, bind, lift, ret.
  cbn [py_contains py_getitem]. unfold has_key.
  destruct (lookup k d) as [v|]; cbn beta iota; [|reflexivity].
  destruct v as [|b|n|s0|l|d0]; try discriminate; intros _; [reflexivity|].
  cbn [is_null negb py_get expected_audit]. cbn beta iota.
  destruct (lookup "score" d0) as [x|]; cbn [is_null negb]; cbn beta iota;
    [|reflexivity].
  destruct x; reflexivity.
Qed.

Lemma normalize_audit_dict_fail d k s :
  audit_readable d k = false ->
  exists x, normalize_audit (JDict d) k s = (Raise x, s).
Proof.
  unfold audit_readable, normalize_audit, bind, lift, ret.
  cbn [py_contains py_getitem]. unfold has_key.
  destruct (lookup k d) as [v|]; cbn beta iota; [|discriminate].
  destruct v as [|b|n|s0|l|d0]; try discriminate; intros _;
    cbn [is_null negb py_get]; cbn beta iota; eexists; reflexivity.
Qed.

Lemma normalize_audit_list l k s :
  normalize_audit (JList l) k s =
  if existsb (is_str_equal k) l
  then (Raise (Exn TypeError "list indices must be integers or slices, not str"), s)
  else (Return default_audit, s).
Proof.
  unfold normalize_audit, bind, lift, ret. cbn [py_contains py_getitem].
  change (existsb _ l) with (existsb (is_str_equal k) l).
  destruct (existsb (is_str_equal k) l); reflexivity.
Qed.

Lemma normalize_audit_str t k s :
  normalize_audit (JStr t) k s =
  if is_substring k t
  then (Raise (Exn TypeError "string indices must be integers, not 'str'"), s)
  else (Return default_audit, s).
Proof.
  unfold normalize_audit, bind, lift, ret. cbn [py_contains py_getitem].
  destruct (is_substring k t); reflexivity.
Qed.

Lemma normalize_audits_exact a (ok : string -> bool) (entry : string -> json) :
  (forall k s, ok k = true -> normalize_audit a k s = (Return (entry k), s)) ->
  (forall k s, ok k = false -> exists x, normalize_audit a k s = (Raise x, s)) ->
  forall ks acc s,
    (forallb ok ks = true ->
     normalize_audits a ks acc s
       = (Return (set_all acc (map (fun k => (k, entry k)) ks)), s)) /\
    (forallb ok ks = false ->
     exists x, normalize_audits a ks acc s = (Raise x, s)).
Proof.
  intros Hok Hfail ks. induction ks as [|k rest IH]; intros acc s.
  - split; [reflexivity|discriminate].
  - cbn [forallb normalize_audits]. destruct (ok k) eqn:Ek; cbn [andb].
    + rewrite (bind_eq _ _ _ _ _ (Hok k s Ek)).
      destruct (IH (dict_set acc k (entry k)) s) as [H1 H2].
      split; [intro H; rewrite (H1 H); reflexivity|exact H2].
    + split; [discriminate|]. intros _.
      destruct (Hfail k s Ek) as [x Hx]. exists x. apply bind_eq_raise. exact Hx.
Qed.

Lemma audits_result_set a :
  set_all [] (map (fun k => (k, match a with
                                | JDict d => expected_audit (lookup k d)
                                | _ => default_audit
                                end)) required_audits)
  = audits_result a.
Proof. destruct a; reflexivity. Qed.

(** Lines 115-126 return exactly on the values [audits_ok] accepts, and then
    store [audits_result]. *)
Lemma normalize_audits_ok a s :
  (audits_ok a = true ->
   normalize_audits a required_audits [] s = (Return (audits_result a), s)) /\
  (audits_ok a = false ->
   exists x, normalize_audits a required_audits [] s = (Raise x, s)).
Proof.
  rewrite <- audits_result_set.
  destruct a as [|b|n|t|l|d].
  1-3: split; [discriminate|]; intros _;
       unfold required_audits; cbn [normalize_audits];
       unfold normalize_audit, bind, lift; cbn [py_contains]; eexists; reflexivity.
  - apply (normalize_audits_exact (JStr t) (fun k => negb (is_substring k t))
             (fun _ => default_audit)).
    + intros k s' H. rewrite normalize_audit_str.
      destruct (is_substring k t); [discriminate|reflexivity].
    + intros k s' H. rewrite normalize_audit_str.
      destruct (is_substring k t); [eexists; reflexivity|discriminate].
  - apply (normalize_audits_exact (JList l) (fun k => negb (existsb (is_str_equal k) l))
             (fun _ => default_audit)).
    + intros k s' H. rewrite normalize_audit_list.
      destruct (existsb (is_str_equal k) l); [discriminate|reflexivity].
    + intros k s' H. rewrite normalize_audit_list.
      destruct (existsb (is_str_equal k) l); [eexists; reflexivity|discriminate].
  - apply (normalize_audits_exact (JDict d) (audit_readable d)
             (fun k => expected_audit (lookup k d))).
    + intros k s' H. apply normalize_audit_dict_exact. exact H.
    + intros k s' H. apply normalize_audit_dict_fail. exact H.
Qed.

(** ** Categories, exactly *)

Lemma found_none_lookup cs candidates k :
  found_entry cs candidates = None -> In k candidates -> lookup k cs = None.
Proof.
  induction candidates as [|c rest IH]; intros Hnone Hin; [contradiction|].
  cbn [found_entry] in Hnone. destruct (lookup c cs) eqn:L; [discriminate|].
  destruct Hin as [<-|Hin]; [exact L|exact (IH Hnone Hin)].
Qed.

(** For the four rows of [category_keys], both alternative spellings tried
    after the loop are among the keys the loop has already tried. *)
Lemma alternatives_are_candidates row :
  In row category_keys ->
  In (kebab_of (fst row)) (snd row) /\ In (camel_of (fst row)) (snd row).
Proof.
  unfold category_keys. cbn [In].
  intros [<-|[<-|[<-|[<-|[]]]]]; split; vm_compute; tauto.
Qed.

Lemma normalize_category_exact cs row acc s :
  In row category_keys ->
  normalize_category (JDict cs) (fst row) (snd row) acc s
  = (Return (dict_set acc (fst row) (score_dict (recorded_score cs (snd row)))),
     add_lines s (if is_missing cs row
                  then [missing_warning (fst row) (keys cs)] else [])).
Proof.
  intro Hrow. unfold recorded_score, is_missing.
  unfold normalize_category. rewrite (bind_eq _ _ _ _ _ (first_found_dict cs (snd row) s)).
  destruct (found_entry cs (snd row)) as [e|] eqn:F; cbn [option_map].
  - rewrite add_lines_nil. reflexivity.
  - destruct (alternatives_are_candidates row Hrow) as [Hk Hc].
    pose proof (found_none_lookup cs _ _ F Hk) as Lk.
    pose proof (found_none_lookup cs _ _ F Hc) as Lc.
    unfold bind, lift, ret, print. cbn [py_contains py_keys]. unfold has_key.
    rewrite Lk. cbn beta iota. rewrite Lc. reflexivity.
Qed.

Lemma normalize_categories_exact cs s :
  normalize_categories (JDict cs) category_keys [] s
  = (Return (expected_categories cs), add_lines s (expected_warnings cs)).
Proof.
  assert (Hrows : forall row, In row category_keys -> In row category_keys) by auto.
  unfold category_keys in Hrows at 1. unfold category_keys at 1.
  cbn [normalize_categories].
  rewrite (bind_eq _ _ _ _ _
             (normalize_category_exact cs ("performance", ["performance"]) _ _
                (Hrows _ (or_introl eq_refl)))).
  rewrite (bind_eq _ _ _ _ _
             (normalize_category_exact cs ("accessibility", ["accessibility"]) _ _
                (Hrows _ (or_intror (or_introl eq_refl))))).
  rewrite (bind_eq _ _ _ _ _
             (normalize_category_exact cs ("best-practices", ["best-practices"; "bestPractices"])
                _ _ (Hrows _ (or_intror (or_intror (or_introl eq_refl)))))).
  rewrite (bind_eq _ _ _ _ _
             (normalize_category_exact cs ("seo", ["seo"]) _ _
                (Hrows _ (or_intror (or_intror (or_intror (or_introl eq_refl))))))).
  rewrite !add_lines_app. unfold ret. f_equal.
  unfold expected_warnings, category_keys. cbn [filter map fst snd].
  destruct (is_missing cs ("performance", ["performance"]));
  destruct (is_missing cs ("accessibility", ["accessibility"]));
  destruct (is_missing cs ("best-practices", ["best-practices"; "bestPractices"]));
  destruct (is_missing cs ("seo", ["seo"])); reflexivity.
Qed.

(** ** A call, exactly *)

(** The body of the [try] on a payload with a result mapping and a
    categories mapping. *)
Lemma try_body_exact r data lhd cs s :
  resp_json r = Return data -> has_lighthouse data lhd ->
  lookup "categories" lhd = Some (JDict cs) ->
  let s2 := Frame (stdout s ++ expected_warnings cs) (Some r) (Some required_audits) in
  (audits_ok (audits_of lhd) = true ->
   try_body (GetReturns r None) s
     = (Return (make_result (expected_categories cs) (audits_result (audits_of lhd))), s2)) /\
  (audits_ok (audits_of lhd) = false ->
   exists x, quiet x /\ try_body (GetReturns r None) s = (Raise x, s2)).
Proof.
  intros Hjson [top [-> Htop]] Hcat s2.
  assert (Hrun : forall o,
            normalize_audits (audits_of lhd) required_audits [] s2 = (o, s2) ->
            try_body (GetReturns r None) s
              = (match o with
                 | Return auds => Return (make_result (expected_categories cs) auds)
                 | Raise x => Raise x
                 end, s2)).
  { intros o Ho.
    unfold try_body, bind, ret, lift, raise, bind_response, bind_required_audits,
      read_required_audits.
    cbn beta iota. rewrite Hjson. cbn [py_contains py_getitem py_get]. unfold has_key.
    rewrite Htop. cbn [negb]. cbn beta iota.
    cbn [py_getitem py_get]. rewrite Hcat. cbn beta iota.
    rewrite normalize_categories_exact.
    cbn [add_lines stdout response_var required_audits_var]. cbn beta iota.
    change (match lookup "audits" lhd with Some v => v | None => JDict [] end)
      with (audits_of lhd).
    fold s2. rewrite Ho. destruct o; reflexivity. }
  destruct (normalize_audits_ok (audits_of lhd) s2) as [Hok Hfail].
  split; intro H.
  - exact (Hrun _ (Hok H)).
  - destruct (Hfail H) as [x Hx]. exists x. split; [|exact (Hrun _ Hx)].
    destruct (normalize_audits_from (audits_of lhd) required_audits [] s2) as [o [Ho Hq]].
    rewrite Hx in Ho. injection Ho as <-. exact Hq.
Qed.

(** An exception that is [quiet] makes the [except] clauses raise without
    printing. *)
Lemma handler_quiet py_str url x s :
  quiet x -> exists y, handler py_str url x s = (Raise y, s).
Proof.
  intro Hq. unfold handler.
  assert (Hgen : exn_cls x <> KeyError -> exists y, on_exception url x s = (Raise y, s)).
  { intro Hk. destruct Hq as [Hq|Hq]; [contradiction|].
    unfold on_exception, str_of_exn. rewrite Hq. eexists. reflexivity. }
  destruct (exn_cls x) eqn:E.
  1: apply on_request_exception_raises.
  1: eexists; reflexivity.
  all: apply Hgen; discriminate.
Qed.

Lemma run_exact py_str self r data lhd cs url strategy :
  resp_json r = Return data -> has_lighthouse data lhd ->
  lookup "categories" lhd = Some (JDict cs) ->
  (audits_ok (audits_of lhd) = true ->
   call_get_metrics py_str self (GetReturns r None) url strategy
     = Return (make_result (expected_categories cs) (audits_result (audits_of lhd)))) /\
  (audits_ok (audits_of lhd) = false ->
   exists y, call_get_metrics py_str self (GetReturns r None) url strategy = Raise y) /\
  printed_by_get_metrics py_str self (GetReturns r None) url strategy
    = expected_warnings cs.
Proof.
  intros Hjson Hl Hcat.
  destruct (try_body_exact r data lhd cs initial_frame Hjson Hl Hcat) as [Hok Hfail].
  unfold call_get_metrics, printed_by_get_metrics, get_metrics, _fetch_metrics, try_except.
  destruct (audits_ok (audits_of lhd)).
  - rewrite (Hok eq_refl). cbn [fst snd stdout initial_frame app].
    split; [reflexivity|]. split; [discriminate|reflexivity].
  - destruct (Hfail eq_refl) as [x [Hq Hx]]. rewrite Hx.
    destruct (handler_quiet py_str url x
                (Frame (stdout initial_frame ++ expected_warnings cs) (Some r)
                   (Some required_audits)) Hq) as [y Hy].
    rewrite Hy. cbn [fst snd stdout initial_frame app].
    split; [discriminate|]. split; [intros _; exists y; reflexivity|reflexivity].
Qed.



Lemma headers_eqb_refl h : headers_eqb h h = true.
Proof.
  induction h as [|[k v] rest IH]; [reflexivity|].
  cbn [headers_eqb]. rewrite !String.eqb_refl, IH. reflexivity.
Qed.

Lemma key_eqb_refl k : key_eqb k k = true.
Proof.
  destruct k as [[[[b k] u] st] h]. cbn [key_eqb].
  rewrite !String.eqb_refl, headers_eqb_refl. reflexivity.
Qed.

(** A call answered from the cache: the stored value, nothing printed, the
    cache as it was; the network is not consulted. *)
Lemma cached_hit py_str self c net url strategy value :
  cache_lookup (key_of self url strategy) c = Some value ->
  cached_get_metrics py_str self c net url strategy = CachedCall (Return value) [] c.
Proof.
  unfold cached_get_metrics, cached_fetch_metrics, key_of. intros ->. reflexivity.
Qed.

(** A call that the cache does not answer is one run of the body, and
    stores what the run returns. *)
Lemma cached_miss py_str self c net url strategy :
  cache_lookup (key_of self url strategy) c = None ->
  cached_get_metrics py_str self c net url strategy
  = CachedCall (call_get_metrics py_str self net url strategy)
      (printed_by_get_metrics py_str self net url strategy)
      (match call_get_metrics py_str self net url strategy with
       | Return value => (key_of self url strategy, value) :: c
       | Raise _ => c
       end).
Proof.
  unfold cached_get_metrics, cached_fetch_metrics, key_of. intros ->.
  unfold call_get_metrics, printed_by_get_metrics, get_metrics.
  destruct (_fetch_metrics py_str net (base_url self) (api_key self) url strategy
              (headers self) initial_frame) as [o s].
  reflexivity.
Qed.

Lemma cached_diagnostics py_str self c net url strategy data lhd cs :
  delivers net data -> has_lighthouse data lhd ->
  lookup "categories" lhd = Some (JDict cs) ->
  let call := cached_get_metrics py_str self c net url strategy in
  printed call = match cache_lookup (key_of self url strategy) c with
                 | Some _ => []
                 | None => expected_warnings cs
                 end /\
  (forall value, cache_lookup (key_of self url strategy) c = Some value ->
     answer call = Return value /\ cache_after call = c) /\
  (forall result, answer call = Return result ->
     forall net', cached_get_metrics py_str self (cache_after call) net' url strategy
                  = CachedCall (Return result) [] (cache_after call)).
Proof.
  intros [r0 [-> Hjson]] Hl Hcat call. subst call.
  destruct (cache_lookup (key_of self url strategy) c) as [value|] eqn:Hc.
  - rewrite (cached_hit py_str self c _ url strategy value Hc).
    cbn [printed answer cache_after].
    split; [reflexivity|]. split.
    + intros v Hv. injection Hv as <-. split; reflexivity.
    + intros result Hr net'. injection Hr as <-.
      apply cached_hit. exact Hc.
  - rewrite (cached_miss py_str self c _ url strategy Hc).
    cbn [printed answer cache_after].
    split.
    + exact (proj2 (proj2 (run_exact py_str self r0 data lhd cs url strategy
                             Hjson Hl Hcat))).
    + split; [discriminate|].
      intros result Hr net'. rewrite Hr. apply cached_hit.
      cbn [cache_lookup]. rewrite key_eqb_refl. reflexivity.
Qed.





(** ** Failures of the request *)

Lemma call_of_raise py_str self net url strategy e s1 :
  try_body net initial_frame = (Raise e, s1) ->
  call_get_metrics py_str self net url strategy
    = fst (handler py_str url e s1).
Proof.
  intro H. unfold call_get_metrics, get_metrics, _fetch_metrics, try_except.
  rewrite H. reflexivity.
Qed.

(** X4: a failure of the request itself, of [raise_for_status] on a response
    that is falsy, or of decoding the body of a response that does not pass
    for a 400 or a 403, surfaces as "Failed to fetch metrics: ..." with the
    text of the underlying error; on a falsy response the status code is not
    looked at. *)
Theorem request_failure_message py_str self url strategy e :
  exn_cls e = RequestException ->
  let failed := Raise (Exn PlainException ("Failed to fetch metrics: " ++ exn_msg e)) in
  call_get_metrics py_str self (GetRaises e) url strategy = failed /\
  (forall r, resp_truthy r = false ->
     call_get_metrics py_str self (GetReturns r (Some e)) url strategy = failed) /\
  (forall r, resp_json r = Raise e ->
     response_has_status (Some r) 400 = false ->
     response_has_status (Some r) 403 = false ->
     call_get_metrics py_str self (GetReturns r None) url strategy = failed).
Proof.
  intros Hcls failed. split; [|split].
  - rewrite (call_of_raise py_str self (GetRaises e) url strategy e initial_frame eq_refl).
    unfold handler. rewrite Hcls. reflexivity.
  - intros r Hr.
    rewrite (call_of_raise py_str self (GetReturns r (Some e)) url strategy e
               (Frame [] (Some r) None) eq_refl).
    unfold handler. rewrite Hcls.
    unfold on_request_exception, bind, read_response. cbn beta iota.
    cbn [response_var response_has_status]. rewrite Hr. reflexivity.
  - intros r Hr H400 H403.
    assert (Hbody : try_body (GetReturns r None) initial_frame
                    = (Raise e, Frame [] (Some r) None)).
    { unfold try_body, bind, ret, lift, bind_response. cbn beta iota.
      rewrite Hr. reflexivity. }
    rewrite (call_of_raise py_str self _ url strategy e _ Hbody).
    unfold handler. rewrite Hcls.
    unfold on_request_exception, bind, read_response. cbn beta iota.
    cbn [response_var]. rewrite H400, H403. reflexivity.
Qed.

Lemma request_failure_message_witness :
  exn_cls (http_error "403 Client Error: Forbidden") = RequestException /\
  resp_truthy (Response false 403 (Return JNull)) = false /\
  call_get_metrics show_str sample_client
    (failed_status (Response false 403 (Return JNull))
       (http_error "403 Client Error: Forbidden")) sample_url "desktop"
  = Raise (Exn PlainException "Failed to fetch metrics: 403 Client Error: Forbidden").
Proof.
  assert (Hc : exn_cls (http_error "403 Client Error: Forbidden") = RequestException)
    by reflexivity.
  assert (Hr : resp_truthy (Response false 403 (Return JNull)) = false) by reflexivity.
  exact (conj Hc (conj Hr
           (proj1 (proj2 (request_failure_message show_str sample_client sample_url
                            "desktop" _ Hc)) _ Hr))).
Defined.

(** X5: the status code of a failed request is never classified.  The
    [except] clause tests [response and response.status_code == 400] (and
    403), and a response of [requests] is falsy exactly when its status is
    an error.  So a failed status check, 400 and 403 included, and a body
    that does not decode both surface as "Failed to fetch metrics: ...":
    the invalid-key, bad-request and access-forbidden messages are not
    raised. *)
Theorem request_failure_is_not_classified py_str self url strategy e r :
  exn_cls e = RequestException -> requests_truthiness r ->
  (status_is_error (status_code r) = true ->
   call_get_metrics py_str self (GetReturns r (Some e)) url strategy = fetch_failure e) /\
  (status_is_error (status_code r) = false -> resp_json r = Raise e ->
   call_get_metrics py_str self (GetReturns r None) url strategy = fetch_failure e).
Proof.
  unfold requests_truthiness, fetch_failure. intros Hcls Ht. split.
  - intro Herr. rewrite Herr in Ht. cbn [negb] in Ht.
    rewrite (call_of_raise py_str self (GetReturns r (Some e)) url strategy e
               (Frame [] (Some r) None) eq_refl).
    unfold handler. rewrite Hcls.
    unfold on_request_exception, bind, read_response. cbn beta iota.
    cbn [response_var response_has_status]. rewrite Ht. reflexivity.
  - intros Hok Hjson.
    assert (H400 : Z.eqb (status_code r) 400 = false).
    { destruct (Z.eqb_spec (status_code r) 400) as [E|]; [|reflexivity].
      rewrite E in Hok. discriminate. }
    assert (H403 : Z.eqb (status_code r) 403 = false).
    { destruct (Z.eqb_spec (status_code r) 403) as [E|]; [|reflexivity].
      rewrite E in Hok. discriminate. }
    assert (Hbody : try_body (GetReturns r None) initial_frame
                    = (Raise e, Frame [] (Some r) None)).
    { unfold try_body, bind, ret, lift, bind_response. cbn beta iota.
      rewrite Hjson. reflexivity. }
    rewrite (call_of_raise py_str self _ url strategy e _ Hbody).
    unfold handler. rewrite Hcls.
    unfold on_request_exception, bind, read_response. cbn beta iota.
    cbn [response_var response_has_status]. rewrite H400, H403, !andb_false_r.
    reflexivity.
Qed.

Lemma request_failure_is_not_classified_witness :
  exn_cls (http_error "403 Client Error: Forbidden") = RequestException /\
  requests_truthiness (Response false 403 (Return JNull)) /\
  status_is_error (status_code (Response false 403 (Return JNull))) = true /\
  call_get_metrics show_str sample_client
    (failed_status (Response false 403 (Return JNull))
       (http_error "403 Client Error: Forbidden")) sample_url "desktop"
  = fetch_failure (http_error "403 Client Error: Forbidden").
Proof.
  assert (Hc : exn_cls (http_error "403 Client Error: Forbidden") = RequestException)
    by reflexivity.
  assert (Hr : requests_truthiness (Response false 403 (Return JNull))) by reflexivity.
  assert (Hs : status_is_error (status_code (Response false 403 (Return JNull))) = true)
    by reflexivity.
  exact (conj Hc (conj Hr (conj Hs
           (proj1 (request_failure_is_not_classified show_str sample_client sample_url
                     "desktop" _ _ Hc Hr) Hs)))).
Defined.

(** X6: a payload that is a mapping without [lighthouseResult] fails with the
    message of line 38 wrapped by the last [except] clause, and a payload that
    is [null], a [bool] or a number fails as well; nothing is printed. *)
Theorem no_lighthouse_result py_str self net url strategy data :
  delivers net data ->
  (forall top, data = JDict top -> lookup "lighthouseResult" top = None ->
     call_get_metrics py_str self net url strategy
       = Raise (Exn PlainException
                  "An error occurred: Invalid API response: No lighthouse results found")) /\
  (data = JNull \/ (exists b, data = JBool b) \/ (exists n, data = JNum n) ->
     call_get_metrics py_str self net url strategy
       = Raise (Exn PlainException
                  ("An error occurred: argument of type " ++ quote (type_name data)
                   ++ " is not iterable"))).
Proof.
  intros [r0 [-> Hjson]]. split.
  - intros top -> Hnone.
    assert (Hbody : try_body (GetReturns r0 None) initial_frame
              = (Raise (Exn PlainException
                          "Invalid API response: No lighthouse results found"),
                 Frame [] (Some r0) None)).
    { unfold try_body, bind, ret, lift, raise, bind_response. cbn beta iota.
      rewrite Hjson. cbn [py_contains]. unfold has_key. rewrite Hnone. reflexivity. }
    rewrite (call_of_raise py_str self _ url strategy _ _ Hbody). reflexivity.
  - intros Hd.
    assert (Hbody : try_body (GetReturns r0 None) initial_frame
              = (Raise (Exn TypeError
                          ("argument of type " ++ quote (type_name data)
                           ++ " is not iterable")),
                 Frame [] (Some r0) None)).
    { unfold try_body, bind, ret, lift, raise, bind_response. cbn beta iota.
      rewrite Hjson.
      destruct Hd as [->|[[b ->]|[n ->]]]; reflexivity. }
    rewrite (call_of_raise py_str self _ url strategy _ _ Hbody).
    destruct Hd as [->|[[b ->]|[[z|f] ->]]]; reflexivity.
Qed.

Lemma no_lighthouse_result_witness :
  delivers (ok_response (JDict [("error", JStr "quota")])) (JDict [("error", JStr "quota")]) /\
  lookup "lighthouseResult" [("error", JStr "quota")] = None /\
  run_sample (JDict [("error", JStr "quota")])
  = Raise (Exn PlainException
             "An error occurred: Invalid API response: No lighthouse results found").
Proof.
  assert (Hd : delivers (ok_response (JDict [("error", JStr "quota")]))
                 (JDict [("error", JStr "quota")])) by apply delivers_ok.
  assert (Hn : lookup "lighthouseResult" [("error", JStr "quota")] = None) by reflexivity.
  exact (conj Hd (conj Hn
           (proj1 (no_lighthouse_result show_str sample_client _ sample_url "desktop" _ Hd)
              _ eq_refl Hn))).
Defined.

(** X7: an error of the request or of decoding the body that is neither a
    [RequestException] nor a [KeyError] never yields a result: it is wrapped
    as "An error occurred: ..." unless its text mentions "score", in which
    case the fallback is attempted with [required_audits] unbound and
    [UnboundLocalError] escapes. *)
Theorem other_request_error py_str self url strategy e :
  exn_cls e <> RequestException -> exn_cls e <> KeyError ->
  let wrapped :=
    if is_substring "score" (exn_msg e)
    then Raise (Exn UnboundLocalError
           "cannot access local variable 'required_audits' where it is not associated with a value")
    else Raise (Exn PlainException ("An error occurred: " ++ exn_msg e)) in
  call_get_metrics py_str self (GetRaises e) url strategy = wrapped /\
  (forall r, resp_json r = Raise e ->
     call_get_metrics py_str self (GetReturns r None) url strategy = wrapped).
Proof.
  intros H1 H2 wrapped.
  assert (Hh : forall s, required_audits_var s = None ->
            fst (handler py_str url e s) = wrapped).
  { intros s Hs. unfold handler, wrapped.
    assert (Hgen : fst (on_exception url e s)
                   = if is_substring "score" (exn_msg e)
                     then Raise (Exn UnboundLocalError
           "cannot access local variable 'required_audits' where it is not associated with a value")
                     else Raise (Exn PlainException ("An error occurred: " ++ exn_msg e))).
    { unfold on_exception, str_of_exn.
      destruct (is_substring "score" (exn_msg e)); [|reflexivity].
      unfold bind, print, read_required_audits. cbn beta iota.
      cbn [required_audits_var]. rewrite Hs. reflexivity. }
    destruct (exn_cls e); try congruence. }
  split.
  - rewrite (call_of_raise py_str self (GetRaises e) url strategy e initial_frame eq_refl).
    apply Hh. reflexivity.
  - intros r Hr.
    assert (Hbody : try_body (GetReturns r None) initial_frame
                    = (Raise e, Frame [] (Some r) None)).
    { unfold try_body, bind, ret, lift, bind_response. cbn beta iota.
      rewrite Hr. reflexivity. }
    rewrite (call_of_raise py_str self _ url strategy e _ Hbody).
    apply Hh. reflexivity.
Qed.

Lemma other_request_error_witness :
  exn_cls (Exn OtherError "Expecting value: line 1 column 1 (char 0)") <> RequestException /\
  exn_cls (Exn OtherError "Expecting value: line 1 column 1 (char 0)") <> KeyError /\
  call_get_metrics show_str sample_client
    (GetReturns (Response true 200
                   (Raise (Exn OtherError "Expecting value: line 1 column 1 (char 0)")))
       None) sample_url "desktop"
  = Raise (Exn PlainException
             "An error occurred: Expecting value: line 1 column 1 (char 0)").
Proof.
  assert (H1 : exn_cls (Exn OtherError "Expecting value: line 1 column 1 (char 0)")
               <> RequestException) by discriminate.
  assert (H2 : exn_cls (Exn OtherError "Expecting value: line 1 column 1 (char 0)")
               <> KeyError) by discriminate.
  exact (conj H1 (conj H2
           (proj2 (other_request_error show_str sample_client sample_url "desktop"
                     _ H1 H2)
              (Response true 200
                 (Raise (Exn OtherError "Expecting value: line 1 column 1 (char 0)")))
              eq_refl))).
Defined.


Ltac raised_quiet :=
  eexists; eexists; split;
  [ reflexivity
  | cbn beta iota; first [ right; reflexivity | left; reflexivity ] ].

(** On a payload that was delivered, whatever lines 36-126 raise is a
    [KeyError] or an error whose text does not mention "score". *)
Lemma try_body_delivered r data s :
  resp_json r = Return data ->
  exists o s', try_body (GetReturns r None) s = (o, s') /\
    match o with
    | Return _ => True
    | Raise e => quiet e
    end.
Proof.
  intro Hjson.
  destruct data as [|b|[z|f]|s0|l|top].
  1-4: unfold_body; rewrite Hjson; cbn [py_contains]; raised_quiet.
  1-2: unfold_body; rewrite Hjson; cbn [py_contains py_getitem];
       match goal with |- context [negb ?b] => destruct b end; cbn [negb]; raised_quiet.
  destruct (lookup "lighthouseResult" top) as [lh|] eqn:Htop.
  2:{ unfold_body. rewrite Hjson. cbn [py_contains]. unfold has_key. rewrite Htop.
      cbn [negb]. raised_quiet. }
  assert (Hraise : forall e,
            py_getitem lh "categories" = Raise e ->
            exists o s', try_body (GetReturns r None) s = (o, s') /\
              match o with
              | Return _ => True
              | Raise e => quiet e
              end).
  { intros e He. unfold_body. rewrite Hjson. cbn [py_contains py_getitem].
    unfold has_key. rewrite Htop. cbn [negb]. cbn beta iota. rewrite He.
    eexists; eexists; split; [reflexivity|].
    cbn beta iota. exact (py_getitem_quiet _ _ _ He). }
  destruct (py_getitem lh "categories") as [c|e] eqn:Hget.
  2:{ apply (Hraise e). reflexivity. }
  clear Hraise.
  destruct lh as [|b|n|s0|l|lhd]; cbn [py_getitem] in Hget; try discriminate.
  destruct (lookup "categories" lhd) as [c'|] eqn:Hcat; [|discriminate].
  injection Hget as ->.
  destruct (isinstance_dict c) eqn:Hc.
  - destruct c as [|b|n|s0|l|cs]; try discriminate.
    assert (Hl : has_lighthouse (JDict top) lhd) by (exists top; split; [reflexivity|exact Htop]).
    destruct (try_body_dict r (JDict top) lhd cs s Hjson Hl Hcat)
      as [vs [lines [o [_ [_ [_ [Hshape Hrun]]]]]]].
    eexists; eexists; split; [exact Hrun|].
    destruct o as [auds|x]; [exact I|exact Hshape].
  - destruct (normalize_categories_other c category_keys []
                (Frame (stdout s) (Some r) (required_audits_var s)) Hc) as [e [He Hq]];
      [discriminate|].
    unfold_body. rewrite Hjson. cbn [py_contains py_getitem].
    unfold has_key. rewrite Htop. cbn [negb]. cbn beta iota.
    cbn [py_getitem]. rewrite Hcat. cbn beta iota. rewrite He.
    eexists; eexists; split; [reflexivity|]. cbn beta iota. exact Hq.
Qed.

Lemma delivered_errors_propagate py_str self net url strategy data e s1 :
  delivers net data ->
  try_body net initial_frame = (Raise e, s1) ->
  quiet e /\
  exists y, call_get_metrics py_str self net url strategy = Raise y.
Proof.
  intros [r0 [-> Hjson]] Hbody.
  destruct (try_body_delivered r0 data initial_frame Hjson) as [o [s' [Hrun Hq]]].
  rewrite Hbody in Hrun. injection Hrun as <- <-.
  split; [exact Hq|].
  rewrite (call_of_raise py_str self _ url strategy e s1 Hbody).
  destruct (handler_quiet py_str url e s1 Hq) as [y Hy].
  exists y. rewrite Hy. reflexivity.
Qed.

(** X15: the all-default fallback of the last [except] clause is never
    reached from a delivered payload.  Whatever lines 36-126 raise on it is a
    [KeyError] or an error whose text does not contain "score", so the call
    raises in its turn and returns no result. *)
Theorem delivered_payload_errors_are_not_score_errors
    py_str self net url strategy data e s1 :
  delivers net data ->
  try_body net initial_frame = (Raise e, s1) ->
  quiet e /\
  exists y, call_get_metrics py_str self net url strategy = Raise y.
Proof. apply delivered_errors_propagate. Qed.

Lemma delivered_payload_errors_are_not_score_errors_witness :
  delivers (ok_response (JDict [("error", JStr "quota")])) (JDict [("error", JStr "quota")]) /\
  try_body (ok_response (JDict [("error", JStr "quota")])) initial_frame
    = (Raise (Exn PlainException "Invalid API response: No lighthouse results found"),
       Frame [] (Some (Response true 200 (Return (JDict [("error", JStr "quota")])))) None) /\
  quiet (Exn PlainException "Invalid API response: No lighthouse results found") /\
  exists y, run_sample (JDict [("error", JStr "quota")]) = Raise y.
Proof.
  assert (Hd : delivers (ok_response (JDict [("error", JStr "quota")]))
                 (JDict [("error", JStr "quota")])) by apply delivers_ok.
  assert (Hb : try_body (ok_response (JDict [("error", JStr "quota")])) initial_frame
    = (Raise (Exn PlainException "Invalid API response: No lighthouse results found"),
       Frame [] (Some (Response true 200 (Return (JDict [("error", JStr "quota")])))) None))
    by reflexivity.
  exact (conj Hd (conj Hb
           (delivered_payload_errors_are_not_score_errors show_str sample_client _
              sample_url "desktop" _ _ _ Hd Hb))).
Defined.

End ClientExtras.

(* ================================================================== *)
(** * Part XI.  More about the exporter *)
(* ================================================================== *)

Module ExporterExtras.
Import Py ApiClient Exporter Spec ClientProofs ExporterProofs.

(** X8: what the exports of a batch of records are.  Flattening gives one
    row per record, in the order of the batch; the table has the nine column
    names and those rows (no column at all for the empty batch, so its CSV
    has an empty header); the CSV and Excel exports are the library's
    rendering of that table and the JSON export that of the list of results,
    and each raises exactly when the library refuses the value. *)
Theorem export_table lib records :
  flatten (map record_to_json records) = Return (map flat_row records) /\
  pd_DataFrame (map flat_row records) = frame_of records /\
  export_results lib (map record_to_json records) "csv"
    = rendered (csv_refuses lib (frame_of records)) (CsvText (csv_of records)) /\
  export_results lib (map record_to_json records) "excel"
    = rendered (excel_refuses lib (frame_of records))
               (ExcelBytes "Analysis Results" (frame_of records)) /\
  (forall results,
     export_results lib results "json"
     = rendered (json_refuses lib (JList results)) (JsonDumps (JList results) 2)).
Proof.
  split; [apply flatten_exact|].
  split; [apply data_frame_exact|].
  split; [apply export_csv|].
  split; [apply export_excel|].
  intro results. reflexivity.
Qed.

(** X9: with a format other than the three known ones the batch is still
    flattened.  When every result has its three keys the export then hands
    back [None], whatever the renderers; a result that lacks one makes it
    raise the [KeyError] or [TypeError] of the subscript instead. *)
Theorem unknown_format_gives_none lib format :
  known_format format = false ->
  (forall records,
     export_results lib (map record_to_json records) format = Return PyNone) /\
  (forall results result k,
     In result results -> In k record_keys -> field k result = None ->
     exists e, export_results lib results format = Raise e /\
               (exn_cls e = KeyError \/ exn_cls e = TypeError)).
Proof.
  unfold known_format. intro H.
  apply orb_false_iff in H. destruct H as [H He].
  apply orb_false_iff in H. destruct H as [Hj Hc].
  split.
  - intro records. unfold export_results.
    rewrite Hj, flatten_exact. cbn [obind]. rewrite Hc, He. reflexivity.
  - intros results result k. apply export_missing_key. exact Hj.
Qed.

Lemma unknown_format_gives_none_witness :
  known_format "pdf" = false /\
  export_results without_csv
    [record_to_json (Analysis sample_url sample_result_camel sample_result_no_audits)]
    "pdf" = Return PyNone /\
  exists e, export_results without_csv [result_without_desktop] "pdf" = Raise e /\
            (exn_cls e = KeyError \/ exn_cls e = TypeError).
Proof.
  assert (H : known_format "pdf" = false) by reflexivity.
  assert (Hin : In result_without_desktop [result_without_desktop])
    by (left; reflexivity).
  assert (Hk : In "desktop" record_keys) by (right; left; reflexivity).
  assert (Hd : field "desktop" result_without_desktop = None) by reflexivity.
  exact (conj H (conj
    (proj1 (unknown_format_gives_none without_csv "pdf" H)
       [Analysis sample_url sample_result_camel sample_result_no_audits])
    (proj2 (unknown_format_gives_none without_csv "pdf" H) _ _ _ Hin Hk Hd))).
Defined.

(** X10: a score that is a number or a [bool] is rendered as [score * 100] when
    it is positive and as [0] otherwise: a negative score and a NaN both give
    [0]; only an unreadable, [None] or non-numeric score gives ['N/A']. *)
Theorem cell_of_numeric_score data category v :
  read_score data category = Some v -> is_numeric v = true ->
  get_score data category
    = Return (if is_positive v then times_100 v else zero).
Proof.
  intros Hr Hn. unfold get_score. rewrite (get_score_body_read _ _ _ Hr).
  destruct v as [|b|[z|f]|s0|l|d0]; try discriminate;
    cbn [is_null py_gt_zero obind is_positive].
  - destruct b; reflexivity.
  - destruct (Z.ltb 0 z); reflexivity.
  - destruct (PrimFloat.ltb 0 f); reflexivity.
Qed.

Lemma cell_of_numeric_score_witness :
  read_score (result_with_performance (JNum (PyInt (-3)))) "performance"
    = Some (JNum (PyInt (-3))) /\
  is_numeric (JNum (PyInt (-3))) = true /\
  get_score (result_with_performance (JNum (PyInt (-3)))) "performance" = Return zero.
Proof.
  assert (Hr : read_score (result_with_performance (JNum (PyInt (-3)))) "performance"
               = Some (JNum (PyInt (-3)))) by reflexivity.
  assert (Hn : is_numeric (JNum (PyInt (-3))) = true) by reflexivity.
  exact (conj Hr (conj Hn (cell_of_numeric_score _ _ _ Hr Hn))).
Defined.

Lemma returned_scores_readable py_str self net url strategy r category :
  call_get_metrics py_str self net url strategy = Return r ->
  In category four_categories ->
  exists v, read_score r category = Some v /\ v <> JNull.
Proof.
  intros Hcall Hin. apply call_returns_inv in Hcall.
  destruct Hcall as (r0 & data & lhd & cs & v1 & v2 & v3 & v4 &
                     e1 & e2 & e3 & e4 & e5 & e6 & e7 &
                     _ & _ & _ & _ & Hvs & _ & ->).
  unfold category_keys in Hvs.
  repeat match goal with
         | H : Forall2 _ (_ :: _) _ |- _ => inversion H; subst; clear H
         | H : Forall2 _ [] _ |- _ => inversion H; subst; clear H
         end.
  repeat match goal with
         | H : category_from _ _ _ |- _ => destruct H as [H _]
         end.
  unfold four_categories in Hin. cbn [In] in Hin.
  destruct Hin as [<-|[<-|[<-|[<-|[]]]]]; eexists; (split; [reflexivity|assumption]).
Qed.

(** X11: what [analyze_url] returns carries the URL it was given, and in both of
    its results each of the four category scores can be read and is not
    [None]: on a record made by [analyze_url] the exporter's ['N/A'] can only
    come from a score that is not a number. *)
Theorem analysis_record_scores py_str client net_desktop net_mobile u rec :
  analyze_url py_str client net_desktop net_mobile u = Return rec ->
  url rec = u /\
  forall category, In category four_categories ->
    (exists v, read_score (desktop rec) category = Some v /\ v <> JNull /\
               (get_score (desktop rec) category = Return na -> is_numeric v = false)) /\
    (exists v, read_score (mobile rec) category = Some v /\ v <> JNull /\
               (get_score (mobile rec) category = Return na -> is_numeric v = false)).
Proof.
  unfold analyze_url.
  destruct (call_get_metrics py_str client net_desktop u "desktop") as [d|e] eqn:Hd;
    [|discriminate].
  destruct (call_get_metrics py_str client net_mobile u "mobile") as [m|e] eqn:Hm;
    [|discriminate].
  intro H. injection H as <-. cbn [url desktop mobile].
  split; [reflexivity|]. intros category Hin. split.
  - destruct (returned_scores_readable _ _ _ _ _ _ _ Hd Hin) as [v [Hv Hn]].
    exists v. split; [exact Hv|]. split; [exact Hn|].
    intro Hna. exact (get_score_na _ _ _ Hna Hv).
  - destruct (returned_scores_readable _ _ _ _ _ _ _ Hm Hin) as [v [Hv Hn]].
    exists v. split; [exact Hv|]. split; [exact Hn|].
    intro Hna. exact (get_score_na _ _ _ Hna Hv).
Qed.

Lemma analysis_record_scores_witness :
  analyze_url show_str sample_client (ok_response payload_camel)
    (ok_response payload_no_audits) sample_url
  = Return (Analysis sample_url sample_result_camel sample_result_no_audits) /\
  url (Analysis sample_url sample_result_camel sample_result_no_audits) = sample_url.
Proof.
  assert (H : analyze_url show_str sample_client (ok_response payload_camel)
                (ok_response payload_no_audits) sample_url
              = Return (Analysis sample_url sample_result_camel sample_result_no_audits))
    by (vm_compute; reflexivity).
  exact (conj H (proj1 (analysis_record_scores _ _ _ _ _ _ H))).
Defined.

End ExporterExtras.
